(** * hatchkit: the GitHub CLI wrappers ([hatchkit/gh.py]) and the
    [pr reply] command ([hatchkit/pr.py])

    A shallow embedding of the Python code.  Python values coming out of
    [json.loads] are the inductive [json]; Python exceptions are the
    inductive [exn]; a function that talks to the outside world (spawns a
    process, prints) is a computation in the monad [M], which threads the
    state of the world and the text printed so far and may raise.  The
    libraries the code calls ([shutil], [subprocess], [json], [rich]) are
    parameters of the embedding.

    Python [str] is modelled by [string]: one [ascii] is one code point
    below 256. *)

From Stdlib Require Import String Ascii List ZArith Lia Bool Arith.
From Stdlib Require Import DecimalString SpecFloat.
Import ListNotations.

#[local] Set Warnings "-register-all".
#[local] Open Scope string_scope.

(* ===================================================================== *)
(** ** Python strings *)
(* ===================================================================== *)

Module PyStr.

(** [str.isspace] on one code point below 256: TAB..CR, FS..US, SPACE,
    NEL (0x85) and NBSP (0xA0). *)
Definition isspace (c : ascii) : bool :=
  let n := nat_of_ascii c in
  ((9 <=? n)%nat && (n <=? 13)%nat) || ((28 <=? n)%nat && (n <=? 32)%nat)
  || (n =? 133)%nat || (n =? 160)%nat.

(** [s.lstrip()] *)
Fixpoint lstrip (s : string) : string :=
  match s with
  | String c s' => if isspace c then lstrip s' else s
  | EmptyString => EmptyString
  end.

(** [s.rstrip()] *)
Fixpoint rstrip (s : string) : string :=
  match s with
  | String c s' =>
      match rstrip s' with
      | EmptyString => if isspace c then EmptyString else String c EmptyString
      | r => String c r
      end
  | EmptyString => EmptyString
  end.

(** [s.strip()] *)
Definition strip (s : string) : string := rstrip (lstrip s).

(** [sep.join(parts)] for a list of [str] *)
Fixpoint join (sep : string) (parts : list string) : string :=
  match parts with
  | [] => ""
  | [p] => p
  | p :: rest => p ++ sep ++ join sep rest
  end.

(** [str(n)] / [f"{n}"] for an [int] *)
Definition of_int (n : Z) : string := NilZero.string_of_int (Z.to_int n).

(** [sub in s] for two [str] *)
Fixpoint contains (sub s : string) : bool :=
  prefix sub s ||
  match s with
  | String _ s' => contains sub s'
  | EmptyString => false
  end.

(** [c in s] for a single character *)
Fixpoint has_char (c : ascii) (s : string) : bool :=
  match s with
  | String c' s' => Ascii.eqb c c' || has_char c s'
  | EmptyString => false
  end.

(** [s.endswith(suffix)] *)
Definition endswith (s suffix : string) : bool :=
  let n := String.length s in
  let m := String.length suffix in
  (m <=? n)%nat && String.eqb (substring (n - m) m s) suffix.

(** The line boundaries of [str.splitlines] below code point 256: LF, VT,
    FF, CR, FS, GS, RS and NEL. *)
Definition is_linebreak (c : ascii) : bool :=
  let n := nat_of_ascii c in
  ((10 <=? n)%nat && (n <=? 13)%nat) || ((28 <=? n)%nat && (n <=? 30)%nat)
  || (n =? 133)%nat.

(** [s.splitlines()]: the lines without their boundaries; CR LF is one
    boundary, and a boundary at the very end opens no further line. *)
Fixpoint splitlines (s : string) : list string :=
  match s with
  | EmptyString => []
  | String c rest =>
      if is_linebreak c then
        match c, rest with
        | "013"%char, String "010"%char rest' => "" :: splitlines rest'
        | _, _ => "" :: splitlines rest
        end
      else
        match splitlines rest with
        | [] => [String c ""]
        | line :: more => String c line :: more
        end
  end.

End PyStr.

(* ===================================================================== *)
(** ** Python values produced by [json.loads] *)
(* ===================================================================== *)

(** [None], [bool], [int], [float] (in its IEEE 754 form), [str], [list]
    and [dict] with [str] keys in insertion order. *)
Inductive json : Type :=
| JNull
| JBool (b : bool)
| JInt (n : Z)
| JFloat (f : spec_float)
| JStr (s : string)
| JList (items : list json)
| JObj (fields : list (string * json)).

(** The exceptions the modelled code raises or lets through. *)
Inductive exn : Type :=
| Exit (code : Z)            (* typer.Exit(code) *)
| GhError (msg : string)     (* hatchkit.gh.GhError(msg) *)
| FileNotFoundError
| TimeoutExpired             (* subprocess.TimeoutExpired *)
| OSError (msg : string)     (* any other failure to spawn *)
| JSONDecodeError            (* json.JSONDecodeError *)
| KeyError (key : string)
| TypeError
| AttributeError
| IndexError
| MarkupError.               (* rich.errors.MarkupError *)

Inductive result (A : Type) : Type :=
| Ok (a : A)
| Raise (e : exn).
Arguments Ok {A} a.
Arguments Raise {A} e.

Module Py.

(** Lookup in a [dict] with [str] keys. *)
Fixpoint lookup (key : string) (fields : list (string * json)) : option json :=
  match fields with
  | [] => None
  | (k, v) :: rest => if String.eqb k key then Some v else lookup key rest
  end.

(** [bool(v)] *)
Definition truthy (v : json) : bool :=
  match v with
  | JNull => false
  | JBool b => b
  | JInt n => negb (n =? 0)%Z
  | JFloat f => match f with S754_zero _ => false | _ => true end
  | JStr s => negb (String.eqb s "")
  | JList l => match l with [] => false | _ => true end
  | JObj kv => match kv with [] => false | _ => true end
  end.

(** [v[key]] for a [str] key *)
Definition subscript (v : json) (key : string) : result json :=
  match v with
  | JObj kv =>
      match lookup key kv with
      | Some x => Ok x
      | None => Raise (KeyError key)
      end
  | _ => Raise TypeError
  end.

(** [key in v] for a [str] key *)
Definition contains (key : string) (v : json) : result bool :=
  match v with
  | JObj kv =>
      Ok (match lookup key kv with Some _ => true | None => false end)
  | JList l =>
      Ok (existsb (fun x => match x with
                            | JStr s => String.eqb s key
                            | _ => false
                            end) l)
  | JStr s => Ok (PyStr.contains key s)
  | _ => Raise TypeError
  end.

(** The items [for x in v] runs over. *)
Definition iterate (v : json) : result (list json) :=
  match v with
  | JList l => Ok l
  | JObj kv => Ok (map (fun kx => JStr (fst kx)) kv)
  | JStr s => Ok (map (fun c => JStr (String c "")) (list_ascii_of_string s))
  | _ => Raise TypeError
  end.

(** [isinstance(v, int)]; [bool] is a subclass of [int]. *)
Definition isinstance_int (v : json) : bool :=
  match v with
  | JInt _ | JBool _ => true
  | _ => false
  end.

End Py.

(* ===================================================================== *)
(** ** Computations: world state, console output, exceptions *)
(* ===================================================================== *)

(** What [subprocess.run(args, capture_output=True, text=True, timeout=t)]
    does: it returns a [CompletedProcess] or raises. *)
Inductive run_outcome : Type :=
| Completed (returncode : Z) (stdout stderr : string)
| RunRaises (e : exn).

Record State (World : Type) : Type := mkState {
  world : World;              (* everything outside the process *)
  console : list string       (* what print / rprint wrote, oldest first *)
}.
Arguments mkState {World} _ _.
Arguments world {World} _.
Arguments console {World} _.

Definition M (World A : Type) : Type :=
  State World -> result A * State World.

Definition ret {W A} (a : A) : M W A := fun st => (Ok a, st).

Definition raise {W A} (e : exn) : M W A := fun st => (Raise e, st).

Definition bind {W A B} (c : M W A) (k : A -> M W B) : M W B :=
  fun st =>
    match c st with
    | (Ok a, st') => k a st'
    | (Raise e, st') => (Raise e, st')
    end.

(** A pure Python expression that may raise. *)
Definition lift {W A} (r : result A) : M W A := fun st => (r, st).

(** The builtin [print(s)]: the argument is recorded as given. *)
Definition echo {W} (s : string) : M W unit :=
  fun st => (Ok tt, mkState (world st) (console st ++ [s])%list).

(** rich's [print], which the code imports as [rprint], reads its argument
    as console markup before it writes anything, and raises where the
    markup is wrong: [rich.errors.MarkupError] on a closing tag such as
    [[/x]] that matches no open tag, for one.  What rich does with a line
    is left open: [print_error s] is the exception [rich.print(s)] raises,
    [None] when it prints.  The lines the code prints with nothing
    interpolated hold matching pairs of rich's own style names and are
    printed. *)
Class Rich : Type := {
  print_error : string -> option exn;
  gh_hint_prints :
    print_error "[red]Error:[/red] 'gh' CLI not found. Install it from https://cli.github.com/"
    = None;
  graphql_heading_prints :
    print_error "[red]GraphQL error:[/red] " = None;
  no_threads_prints :
    print_error "[green]No unresolved threads.[/green]" = None;
  no_checks_prints :
    print_error "[dim]No checks found.[/dim]" = None
}.

(** [rprint(s)]: the markup is recorded as given when rich prints it;
    when rich raises, nothing has been written. *)
Definition rprint {W} {rich : Rich} (s : string) : M W unit :=
  match print_error s with
  | Some e => raise e
  | None => echo s
  end.

Declare Scope py_scope.
Delimit Scope py_scope with py.
Notation "x <- c ;; k" := (bind c (fun x => k))
  (at level 61, c at next level, right associativity) : py_scope.
Notation "c ;;; k" := (bind c (fun _ => k))
  (at level 61, right associativity) : py_scope.
#[local] Open Scope py_scope.

(** [try: body / except Exception: handler]; every exception of [exn] is
    an [Exception]. *)
Definition try_except {W A} (body handler : M W A) : M W A :=
  fun st =>
    match body st with
    | (Ok a, st') => (Ok a, st')
    | (Raise _, st') => handler st'
    end.

(** A list comprehension [[f(x) for x in xs]] whose body may raise. *)
Fixpoint comprehension {A B} (f : A -> result B) (xs : list A)
  : result (list B) :=
  match xs with
  | [] => Ok []
  | x :: rest =>
      match f x with
      | Raise e => Raise e
      | Ok y =>
          match comprehension f rest with
          | Raise e => Raise e
          | Ok ys => Ok (y :: ys)
          end
      end
  end.

(** A filtering comprehension [[x for x in xs if p(x)]] whose condition
    may raise. *)
Fixpoint comprehension_if {A} (p : A -> result bool) (xs : list A)
  : result (list A) :=
  match xs with
  | [] => Ok []
  | x :: rest =>
      match p x with
      | Raise e => Raise e
      | Ok keep =>
          match comprehension_if p rest with
          | Raise e => Raise e
          | Ok ys => Ok (if keep then x :: ys else ys)
          end
      end
  end.

(* ===================================================================== *)
(** ** Python regular expressions, as far as [gh.py] uses them *)
(* ===================================================================== *)

Module Re.

Inductive quant : Type := Greedy | Lazy.

(** The syntax of the patterns: literals, a one-or-more repetition of a
    character class ([[..]+] greedy, [[..]+?] lazy), a greedy optional
    non-capturing group [(?:r)?], a numbered capturing group and [$]. *)
Inductive re : Type :=
| Eps
| Chr (c : ascii)
| Seq (r1 r2 : re)
| Plus (cls : ascii -> bool) (q : quant)
| Opt (r : re)
| Group (n : nat) (r : re)
| Eol.

(** The class [[^c]]: every character but [c], newline included. *)
Definition not_char (c : ascii) : ascii -> bool :=
  fun x => negb (Ascii.eqb x c).

(** A run of literal characters. *)
Fixpoint lit (s : string) : re :=
  match s with
  | EmptyString => Eps
  | String c s' => Seq (Chr c) (lit s')
  end.

(** Concatenation of the parts of a pattern, left to right. *)
Definition cat (parts : list re) : re := fold_right Seq Eps parts.

(** The groups matched so far: group number and text, latest first. *)
Definition groups : Type := list (nat * string).

(** What [s] lost to become its suffix [rest]. *)
Definition consumed (s rest : string) : string :=
  substring 0 (String.length s - String.length rest) s.

(** [$] with no flags: at the end of the text, or just before a newline
    that ends the text. *)
Definition at_end (s : string) : bool :=
  match s with
  | EmptyString => true
  | String c EmptyString => Ascii.eqb c "010"
  | _ => false
  end.

(** Zero or more of [cls], longest first, backtracking into [k]. *)
Fixpoint star_greedy (cls : ascii -> bool) (s : string)
    (k : string -> option groups) : option groups :=
  match s with
  | String c s' =>
      if cls c then
        match star_greedy cls s' k with
        | Some g => Some g
        | None => k s
        end
      else k s
  | EmptyString => k s
  end.

(** Zero or more of [cls], shortest first. *)
Fixpoint star_lazy (cls : ascii -> bool) (s : string)
    (k : string -> option groups) : option groups :=
  match k s with
  | Some g => Some g
  | None =>
      match s with
      | String c s' => if cls c then star_lazy cls s' k else None
      | EmptyString => None
      end
  end.

Definition plus (cls : ascii -> bool) (q : quant) (s : string)
    (k : string -> option groups) : option groups :=
  match s with
  | String c s' =>
      if cls c then
        match q with
        | Greedy => star_greedy cls s' k
        | Lazy => star_lazy cls s' k
        end
      else None
  | EmptyString => None
  end.

(** The backtracking matcher: [run r s g k] matches [r] at the start of
    [s] and hands the rest of the text and the groups to [k]; the first
    alternative for which [k] succeeds wins. *)
Fixpoint run (r : re) (s : string) (g : groups)
    (k : string -> groups -> option groups) : option groups :=
  match r with
  | Eps => k s g
  | Chr c =>
      match s with
      | String c' s' => if Ascii.eqb c c' then k s' g else None
      | EmptyString => None
      end
  | Seq r1 r2 => run r1 s g (fun s' g' => run r2 s' g' k)
  | Plus cls q => plus cls q s (fun s' => k s' g)
  | Opt r1 =>
      match run r1 s g k with
      | Some g' => Some g'
      | None => k s g
      end
  | Group n r1 => run r1 s g (fun s' g' => k s' ((n, consumed s s') :: g'))
  | Eol => if at_end s then k s g else None
  end.

(** [re.match(pattern, s)]: anchored at the start of [s] only. *)
Definition match_ (pattern : re) (s : string) : option groups :=
  run pattern s [] (fun _ g => Some g).

(** [m.group(n)] for a group that took part in the match.  The patterns
    of [gh.py] have no group inside an optional part, so both groups are
    set by every match ([RemoteFacts.run_path_sound] below) and the
    [None] of a group that took no part does not arise. *)
Definition group (m : groups) (n : nat) : string :=
  match find (fun p => Nat.eqb (fst p) n) m with
  | Some p => snd p
  | None => ""
  end.

End Re.

(* ===================================================================== *)
(** ** hatchkit/gh.py *)
(* ===================================================================== *)

(** [r"git@github\.com:([^/]+)/([^/]+?)(?:\.git)?$"] *)
Definition ssh_pattern : Re.re :=
  Re.cat [Re.lit "git@github.com:";
          Re.Group 1 (Re.Plus (Re.not_char "/") Re.Greedy);
          Re.Chr "/";
          Re.Group 2 (Re.Plus (Re.not_char "/") Re.Lazy);
          Re.Opt (Re.lit ".git");
          Re.Eol].

(** [r"https://github\.com/([^/]+)/([^/]+?)(?:\.git)?$"] *)
Definition https_pattern : Re.re :=
  Re.cat [Re.lit "https://github.com/";
          Re.Group 1 (Re.Plus (Re.not_char "/") Re.Greedy);
          Re.Chr "/";
          Re.Group 2 (Re.Plus (Re.not_char "/") Re.Lazy);
          Re.Opt (Re.lit ".git");
          Re.Eol].

Definition fetch_review_threads_query : string :=
  "
    query($owner: String!, $repo: String!, $pr: Int!) {
      repository(owner: $owner, name: $repo) {
        pullRequest(number: $pr) {
          reviewThreads(first: 100) {
            nodes {
              id
              isResolved
              path
              line
              comments(first: 10) {
                nodes {
                  author { login }
                  body
                  createdAt
                }
              }
            }
          }
        }
      }
    }".

Definition resolve_thread_query : string :=
  "
    mutation($threadId: ID!) {
      resolveReviewThread(input: { threadId: $threadId }) {
        thread { id isResolved }
      }
    }".

Definition reply_to_thread_query : string :=
  "
    mutation($threadId: ID!, $body: String!) {
      addPullRequestReviewThreadReply(input: {
        pullRequestReviewThreadId: $threadId
        body: $body
      }) {
        comment { id body }
      }
    }".

Section Gh.

Context {World : Type} {rich : Rich}.

(** [shutil.which(name)] *)
Variable which : string -> World -> option string.

(** [subprocess.run(args, capture_output=True, text=True, timeout=t)] *)
Variable subprocess_run : list string -> Z -> World -> run_outcome * World.

(** [json.loads(text)]; [None] stands for [json.JSONDecodeError]. *)
Variable json_loads : string -> option json.

(** [json.dumps(data, indent=2)] *)
Variable json_dumps : json -> string.

(** [str(v)] for a float, a list or a dict. *)
Variable repr_compound : json -> string.

#[local] Abbreviation Cmd := (M World).

(** [str(v)], which is also what [f"{v}"] renders. *)
Definition str (v : json) : string :=
  match v with
  | JStr s => s
  | JInt n => PyStr.of_int n
  | JBool true => "True"
  | JBool false => "False"
  | JNull => "None"
  | _ => repr_compound v
  end.

Definition require_gh : Cmd unit :=
  fun st =>
    match which "gh" (world st) with
    | None =>
        (rprint "[red]Error:[/red] 'gh' CLI not found. Install it from https://cli.github.com/" ;;;
         raise (Exit 1)) st
    | Some _ => ret tt st
    end.

(** The call [subprocess.run(args, ..., timeout=30)] as a computation. *)
Definition spawn (args : list string) : Cmd run_outcome :=
  fun st =>
    let (o, w) := subprocess_run args 30 (world st) in
    (Ok o, mkState w (console st)).

Definition _run_command (args : list string) : Cmd string :=
  o <- spawn args ;;
  match o with
  | RunRaises FileNotFoundError =>
      match args with
      | [] => raise IndexError
      | a0 :: _ =>
          rprint ("[red]Error:[/red] Command not found: " ++ a0) ;;;
          raise (Exit 1)
      end
  | RunRaises e => raise e
  | Completed returncode stdout stderr =>
      if negb (returncode =? 0)%Z then
        let stderr := PyStr.strip stderr in
        raise (GhError
                 (if negb (String.eqb stderr "") then stderr
                  else "Command failed with exit code "
                       ++ PyStr.of_int returncode))
      else ret stdout
  end.

Definition _run_gh (args : list string) : Cmd string :=
  require_gh ;;;
  _run_command ("gh" :: args).

(** The argument vector [_run_graphql] builds before it runs it: the
    [for key, value in variables.items()] loop with its [cmd.extend]. *)
Definition graphql_cmd (query : string) (variables : list (string * json))
  : list string :=
  fold_left
    (fun cmd kv =>
       let '(key, value) := kv in
       if Py.isinstance_int value
       then (cmd ++ ["-F"; (key ++ "=" ++ str value)%string])%list
       else (cmd ++ ["-f"; (key ++ "=" ++ str value)%string])%list)
    variables
    ["gh"; "api"; "graphql"; "-f"; "query=" ++ query].

(** [e.get("message", str(e))] *)
Definition error_message (e : json) : result json :=
  match e with
  | JObj kv =>
      Ok (match Py.lookup "message" kv with
          | Some m => m
          | None => JStr (str e)
          end)
  | _ => Raise AttributeError
  end.

(** [sep.join(msgs)]: every item has to be a [str]. *)
Definition join_values (sep : string) (msgs : list json) : result string :=
  match comprehension (fun m => match m with
                                | JStr s => Ok s
                                | _ => Raise TypeError
                                end) msgs with
  | Ok parts => Ok (PyStr.join sep parts)
  | Raise e => Raise e
  end.

Definition _run_graphql (query : string) (variables : list (string * json))
  : Cmd json :=
  require_gh ;;;
  let cmd := graphql_cmd query variables in
  result <- _run_command cmd ;;
  data <- lift (match json_loads result with
                | Some v => Ok v
                | None => Raise JSONDecodeError
                end) ;;
  has_errors <- lift (Py.contains "errors" data) ;;
  if (has_errors : bool) then
    errors <- lift (Py.subscript data "errors") ;;
    items <- lift (Py.iterate errors) ;;
    msgs <- lift (comprehension error_message items) ;;
    joined <- lift (join_values "; " msgs) ;;
    rprint ("[red]GraphQL error:[/red] " ++ joined) ;;;
    raise (Exit 1)
  else ret data.

(** The part of [get_repo_info] after the remote's URL has been read:
    [url = result.strip()], the two [re.match] attempts, the error exit. *)
Definition parse_remote (result : string) : Cmd (string * string) :=
  let url := PyStr.strip result in
  match Re.match_ ssh_pattern url with
  | Some m => ret (Re.group m 1, Re.group m 2)
  | None =>
      match Re.match_ https_pattern url with
      | Some m => ret (Re.group m 1, Re.group m 2)
      | None =>
          rprint ("[red]Error:[/red] Could not parse owner/repo from remote URL: "
                ++ url) ;;;
          raise (Exit 1)
      end
  end.

Definition get_repo_info : Cmd (string * string) :=
  result <- _run_command ["git"; "remote"; "get-url"; "origin"] ;;
  parse_remote result.

Definition get_pr_info : Cmd json :=
  result <- _run_gh ["pr"; "view"; "--json"; "number,url,headRefName"] ;;
  lift (match json_loads result with
        | Some v => Ok v
        | None => Raise JSONDecodeError
        end).

(** [data["data"]["repository"]["pullRequest"]["reviewThreads"]["nodes"]] *)
Definition thread_nodes (data : json) : result json :=
  fold_left
    (fun acc key =>
       match acc with
       | Ok v => Py.subscript v key
       | Raise e => Raise e
       end)
    ["data"; "repository"; "pullRequest"; "reviewThreads"; "nodes"]
    (Ok data).

(** [not t["isResolved"]] *)
Definition unresolved (t : json) : result bool :=
  match Py.subscript t "isResolved" with
  | Ok v => Ok (negb (Py.truthy v))
  | Raise e => Raise e
  end.

Definition fetch_review_threads (owner repo : string) (pr : Z)
    (all_threads : bool) : Cmd json :=
  let query := fetch_review_threads_query in
  let variables := [("owner", JStr owner); ("repo", JStr repo); ("pr", JInt pr)] in
  data <- _run_graphql query variables ;;
  threads <- lift (thread_nodes data) ;;
  if negb all_threads then
    items <- lift (Py.iterate threads) ;;
    kept <- lift (comprehension_if unresolved items) ;;
    ret (JList kept)
  else ret threads.

Definition resolve_thread (thread_id : string) : Cmd json :=
  let query := resolve_thread_query in
  let variables := [("threadId", JStr thread_id)] in
  _run_graphql query variables.

Definition reply_to_thread (thread_id body : string) : Cmd json :=
  let query := reply_to_thread_query in
  let variables := [("threadId", JStr thread_id); ("body", JStr body)] in
  _run_graphql query variables.

(* --------------------------------------------------------------------- *)
(** *** hatchkit/pr.py *)
(* --------------------------------------------------------------------- *)

Definition _json_out (data : json) : Cmd unit :=
  echo (json_dumps data).

(** The [pr reply] command; [and_resolve] is its [--resolve] option (the
    parameter the source calls [resolve_thread]), [JNull] is [None]. *)
Definition reply (thread_id body : string) (and_resolve pretty : bool)
  : Cmd unit :=
  reply_result <- reply_to_thread thread_id body ;;
  resolve_result <- (if and_resolve then resolve_thread thread_id
                     else ret JNull) ;;
  if pretty then
    rprint ("[green]Replied to thread[/green] " ++ thread_id) ;;;
    if and_resolve
    then rprint ("[green]Resolved thread[/green] " ++ thread_id)
    else ret tt
  else
    let output := [("reply", reply_result)] in
    let output :=
      match resolve_result with
      | JNull => output
      | _ => (output ++ [("resolve", resolve_result)])%list
      end in
    _json_out (JObj output).

(* --------------------------------------------------------------------- *)
(** *** The rest of hatchkit/gh.py and hatchkit/pr.py *)
(* --------------------------------------------------------------------- *)

Definition get_pr_checks : Cmd json :=
  result <- _run_gh ["pr"; "checks"; "--json"; "name,state,conclusion,link"] ;;
  lift (match json_loads result with
        | Some v => Ok v
        | None => Raise JSONDecodeError
        end).

(** [fetch_review_threads] for a PR number that is any Python value: the
    [threads] command passes on what [gh pr view] reported under
    [number].  [fetch_review_threads] is the case of an [int]. *)
Definition fetch_review_threads_dyn (owner repo : string) (pr : json)
    (all_threads : bool) : Cmd json :=
  let query := fetch_review_threads_query in
  let variables := [("owner", JStr owner); ("repo", JStr repo); ("pr", pr)] in
  data <- _run_graphql query variables ;;
  threads <- lift (thread_nodes data) ;;
  if negb all_threads then
    items <- lift (Py.iterate threads) ;;
    kept <- lift (comprehension_if unresolved items) ;;
    ret (JList kept)
  else ret threads.

(** The [pr info] command. *)
Definition info (pretty : bool) : Cmd unit :=
  data <- get_pr_info ;;
  if pretty then
    number <- lift (Py.subscript data "number") ;;
    rprint ("  PR  : [bold cyan]#" ++ str number ++ "[/bold cyan]") ;;;
    url <- lift (Py.subscript data "url") ;;
    url' <- lift (Py.subscript data "url") ;;
    rprint ("  URL : [link=" ++ str url ++ "]" ++ str url' ++ "[/link]") ;;;
    branch <- lift (Py.subscript data "headRefName") ;;
    rprint ("  Branch: " ++ str branch)
  else _json_out data.

(** [x or y] for an optional [str] option [x]: [None] and the empty
    string give [y]. *)
Definition or_else (x : option string) (y : string) : string :=
  match x with
  | Some s => if String.eqb s "" then y else s
  | None => y
  end.

(** The block of [threads] that builds the rich table of a non-empty
    thread list and prints it with the thread ids (the [pretty] branch
    after the early return, lines 75 to 98 of [pr.py]); what it does is
    left open, and no property below depends on it. *)
Variable render_threads_table : json -> Cmd unit.

(** The [pr threads] command; [None] is an option that was not given. *)
Definition threads (owner repo : option string) (pr : option Z)
    (all_threads pretty : bool) : Cmd unit :=
  names <- match owner, repo with
           | Some o, Some r => ret (o, r)
           | _, _ =>
               detected <- get_repo_info ;;
               ret (or_else owner (fst detected), or_else repo (snd detected))
           end ;;
  pr <- match pr with
        | Some n => ret (JInt n)
        | None =>
            pr_info <- get_pr_info ;;
            lift (Py.subscript pr_info "number")
        end ;;
  thread_list <- fetch_review_threads_dyn (fst names) (snd names) pr
                   all_threads ;;
  if pretty then
    if negb (Py.truthy thread_list)
    then rprint "[green]No unresolved threads.[/green]"
    else render_threads_table thread_list
  else _json_out thread_list.

(** The [pr resolve] command. *)
Definition resolve (thread_id : string) (pretty : bool) : Cmd unit :=
  result <- resolve_thread thread_id ;;
  if pretty then rprint ("[green]Resolved thread[/green] " ++ thread_id)
  else _json_out result.

(** The block of [checks] that builds and prints the rich table of a
    non-empty check list (lines 156 to 176 of [pr.py]); left open like
    the one of [threads]. *)
Variable render_checks_table : json -> Cmd unit.

(** The [pr checks] command. *)
Definition checks (pretty : bool) : Cmd unit :=
  check_list <- get_pr_checks ;;
  if pretty then
    if negb (Py.truthy check_list)
    then rprint "[dim]No checks found.[/dim]"
    else render_checks_table check_list
  else _json_out check_list.

(* --------------------------------------------------------------------- *)
(** *** hatchkit/cli.py *)
(* --------------------------------------------------------------------- *)

(** The call [subprocess.run([name, "--version"], ..., timeout=5)]. *)
Definition spawn_version (name : string) : Cmd run_outcome :=
  fun st =>
    let (o, w) := subprocess_run [name; "--version"] 5 (world st) in
    (Ok o, mkState w (console st)).

Definition _tool_status (name : string) : Cmd (bool * string) :=
  fun st =>
    match which name (world st) with
    | None => ret (false, "") st
    | Some path =>
        (version <-
           try_except
             (o <- spawn_version name ;;
              match o with
              | RunRaises e => raise e
              | Completed _ stdout stderr =>
                  let text := if negb (String.eqb stdout "") then stdout
                              else stderr in
                  match PyStr.splitlines (PyStr.strip text) with
                  | first :: _ => ret first
                  | [] => raise IndexError
                  end
              end)
             (ret path) ;;
         ret (true, version)) st
    end.

End Gh.

(* ===================================================================== *)
(** ** Auxiliary definitions used to state the properties *)
(* ===================================================================== *)

(** Every character of [s] lies in the class [cls]. *)
Fixpoint all_in (cls : ascii -> bool) (s : string) : bool :=
  match s with
  | String c s' => cls c && all_in cls s'
  | EmptyString => true
  end.

(** [s] without the leading [p], when [s] starts with [p]. *)
Fixpoint strip_prefix (p s : string) : option string :=
  match p, s with
  | EmptyString, _ => Some s
  | String a p', String b s' =>
      if Ascii.eqb a b then strip_prefix p' s' else None
  | String _ _, EmptyString => None
  end.

(** The two patterns of [get_repo_info] differ in their literal prefix
    only. *)
Definition remote_pattern (p : string) : Re.re :=
  Re.cat [Re.lit p;
          Re.Group 1 (Re.Plus (Re.not_char "/") Re.Greedy);
          Re.Chr "/";
          Re.Group 2 (Re.Plus (Re.not_char "/") Re.Lazy);
          Re.Opt (Re.lit ".git");
          Re.Eol].

(** The texts on which the end of the patterns, [(?:\.git)?$], matches. *)
Definition tail_ok (s : string) : bool :=
  match strip_prefix ".git" s with
  | Some rest => Re.at_end rest || Re.at_end s
  | None => Re.at_end s
  end.

(** The pattern after its literal prefix, with the continuation of
    [re.match]. *)
Definition run_path (s : string) : option Re.groups :=
  Re.run (Re.cat [Re.Group 1 (Re.Plus (Re.not_char "/") Re.Greedy);
                  Re.Chr "/";
                  Re.Group 2 (Re.Plus (Re.not_char "/") Re.Lazy);
                  Re.Opt (Re.lit ".git");
                  Re.Eol]) s [] (fun _ g => Some g).

(** The shape of a remote URL in the words of the specification: the
    fixed host prefix of the SSH or of the HTTPS form, then a path of
    exactly two segments, owner and repository, both non-empty. *)
Fixpoint segments (path : string) : list string :=
  match path with
  | EmptyString => [""]
  | String c rest =>
      if Ascii.eqb c "/" then "" :: segments rest
      else
        match segments rest with
        | seg :: more => String c seg :: more
        | [] => [String c ""]
        end
  end.

Definition two_segments (path : string) : bool :=
  match segments path with
  | [owner; repo] => negb (String.eqb owner "") && negb (String.eqb repo "")
  | _ => false
  end.

Definition remote_shape (url : string) : bool :=
  match strip_prefix "git@github.com:" url with
  | Some path => two_segments path
  | None =>
      match strip_prefix "https://github.com/" url with
      | Some path => two_segments path
      | None => false
      end
  end.

(** The thread's [isResolved] field is the boolean [False]. *)
Definition unresolved_thread (t : json) : bool :=
  match t with
  | JObj fields =>
      match Py.lookup "isResolved" fields with
      | Some (JBool false) => true
      | _ => false
      end
  | _ => false
  end.

(** The failures [gh.py] signals itself: its own [GhError] and the error
    exit [typer.Exit]; every other exception is a library's, let through. *)
Definition module_error (e : exn) : bool :=
  match e with
  | GhError _ | Exit _ => true
  | _ => false
  end.

(** How the [variables] loop of [_run_graphql] encodes one entry. *)
Definition encode_variable (repr_compound : json -> string)
    (kv : string * json) : list string :=
  [if Py.isinstance_int (snd kv) then "-F" else "-f";
   fst kv ++ "=" ++ str repr_compound (snd kv)].

(** A GraphQL error entry as the data model has it: an object whose
    [message] is the string [m]. *)
Definition error_with_message (e : json) (m : string) : Prop :=
  exists fields, e = JObj fields /\ Py.lookup "message" fields = Some (JStr m).

(** What [_run_graphql] does with the parsed response [data]: the code
    from [if "errors" in data:] to the end of the function. *)
Definition check_errors {World : Type} {rich : Rich}
    (repr_compound : json -> string) (data : json) : M World json :=
  has_errors <- lift (Py.contains "errors" data) ;;
  if (has_errors : bool) then
    errors <- lift (Py.subscript data "errors") ;;
    items <- lift (Py.iterate errors) ;;
    msgs <- lift (comprehension (error_message repr_compound) items) ;;
    joined <- lift (join_values "; " msgs) ;;
    rprint ("[red]GraphQL error:[/red] " ++ joined) ;;;
    raise (Exit 1)
  else ret data.

(** [gh] is installed and the [gh api graphql] process spawned for
    [query] and [variables] exits with status 0 printing [text]; [w1] is
    the world afterwards. *)
Definition gh_answers {World : Type}
    (which : string -> World -> option string)
    (subprocess_run : list string -> Z -> World -> run_outcome * World)
    (repr_compound : json -> string)
    (query : string) (variables : list (string * json))
    (st : State World) (text : string) (w1 : World) : Prop :=
  (exists path, which "gh" (world st) = Some path) /\
  exists stderr,
    subprocess_run (graphql_cmd repr_compound query variables) 30%Z (world st)
    = (Completed 0 text stderr, w1).

(** How [_run_graphql] renders one entry of [errors] that is an object:
    its [message] when that is a string, and [str] of the whole entry
    when it has no [message]. *)
Definition error_rendering (repr_compound : json -> string)
    (e : json) (m : string) : Prop :=
  exists fields,
    e = JObj fields /\
    (Py.lookup "message" fields = Some (JStr m) \/
     (Py.lookup "message" fields = None /\ m = repr_compound e)).

(** A Python value that is no container: [None], a [bool] or a number. *)
Definition scalar (v : json) : bool :=
  match v with
  | JNull | JBool _ | JInt _ | JFloat _ => true
  | _ => false
  end.

Definition is_object (v : json) : bool :=
  match v with
  | JObj _ => true
  | _ => false
  end.

(** The thread is an object with an [isResolved] entry, of any value. *)
Definition has_flag (t : json) : bool :=
  match t with
  | JObj fields =>
      match Py.lookup "isResolved" fields with
      | Some _ => true
      | None => false
      end
  | _ => false
  end.

(** The thread is an object whose [isResolved] entry is falsy: [False],
    but also [None], zero or an empty string, list or object. *)
Definition flag_falsy (t : json) : bool :=
  match t with
  | JObj fields =>
      match Py.lookup "isResolved" fields with
      | Some v => negb (Py.truthy v)
      | None => false
      end
  | _ => false
  end.

(** The text up to the first line boundary. *)
Fixpoint first_line (s : string) : string :=
  match s with
  | EmptyString => EmptyString
  | String c rest =>
      if PyStr.is_linebreak c then EmptyString else String c (first_line rest)
  end.

(** The class of the characters that are no line boundary. *)
Definition not_linebreak (c : ascii) : bool := negb (PyStr.is_linebreak c).

(** What [_tool_status] reads the version from: [result.stdout or
    result.stderr]. *)
Definition version_text (stdout stderr : string) : string :=
  if negb (String.eqb stdout "") then stdout else stderr.

(** rich's rules for the tags of console markup ([rich.markup] of rich
    13), for the concrete runs.  A tag is what the pattern [RE_TAGS]
    finds, scanning from the left: backslashes, an opening bracket, a
    character of the class [a-z#/@], then text without an opening bracket
    up to the first closing bracket; an odd number of backslashes right
    before the opening bracket escapes the tag.  [render] keeps a stack of
    the open tags: a closing tag [/name] takes the nearest open tag of
    that name off the stack, [/] the last one, and [MarkupError] is raised
    when there is none.  Names are compared as written ([Style.normalize]
    leaves the style names of the runs as they are), and the handlers of
    [@] tags are not looked at. *)
Module Markup.

Record Tag : Type := mkTag {
  name : string;
  parameters : option string
}.

(** The class [[a-z#/@]] *)
Definition tag_start (c : ascii) : bool :=
  let n := nat_of_ascii c in
  ((97 <=? n)%nat && (n <=? 122)%nat)
  || (n =? 35)%nat || (n =? 47)%nat || (n =? 64)%nat.

(** [text, equals, parameters = tag_text.partition("=")], then
    [Tag(text, parameters if equals else None)] *)
Fixpoint make_tag (tag_text : string) : Tag :=
  match tag_text with
  | EmptyString => mkTag "" None
  | String c rest =>
      if Ascii.eqb c "=" then mkTag "" (Some rest)
      else
        let t := make_tag rest in
        mkTag (String c (name t)) (parameters t)
  end.

(** Where the scan for the next tag stands: in plain text after a run of
    backslashes, right after an opening bracket that [escapes]
    backslashes precede, or in the text of a tag. *)
Inductive scanning : Type :=
| Plain (backslashes : nat)
| Bracket (escapes : nat)
| Inside (escapes : nat) (tag_text : string) (backslashes : nat).

(** One character of plain text. *)
Definition plain_step (c : ascii) (backslashes : nat) : scanning :=
  if Ascii.eqb c "\" then Plain (S backslashes)
  else if Ascii.eqb c "[" then Bracket backslashes
  else Plain 0.

(** The tags [_parse] yields, in order. *)
Fixpoint tags (markup : string) (q : scanning) : list Tag :=
  match markup with
  | EmptyString => []
  | String c rest =>
      match q with
      | Plain backslashes => tags rest (plain_step c backslashes)
      | Bracket escapes =>
          if tag_start c then tags rest (Inside escapes (String c "") 0)
          else tags rest (plain_step c 0)
      | Inside escapes tag_text backslashes =>
          if Ascii.eqb c "]" then
            if Nat.even escapes
            then make_tag tag_text :: tags rest (Plain 0)
            else tags rest (Plain 0)
          else if Ascii.eqb c "[" then tags rest (Bracket backslashes)
          else
            tags rest
              (Inside escapes (tag_text ++ String c "")
                 (if Ascii.eqb c "\" then S backslashes else 0))
      end
  end.

(** [pop_style(style_name)] on the stack of open tags, last opened
    first: the stack without the nearest tag of that name. *)
Fixpoint pop_style (style_name : string) (style_stack : list Tag)
  : option (list Tag) :=
  match style_stack with
  | [] => None
  | tag :: below =>
      if String.eqb (name tag) style_name then Some below
      else
        match pop_style style_name below with
        | Some below' => Some (tag :: below')
        | None => None
        end
  end.

(** Whether the loop of [render] over the tags raises [MarkupError]. *)
Fixpoint unmatched (ts : list Tag) (style_stack : list Tag) : bool :=
  match ts with
  | [] => false
  | tag :: more =>
      match name tag with
      | String "/" closed =>
          let style_name := PyStr.strip closed in
          let popped :=
            if negb (String.eqb style_name "")
            then pop_style style_name style_stack
            else match style_stack with
                 | [] => None
                 | _ :: below => Some below
                 end in
          match popped with
          | Some below => unmatched more below
          | None => true
          end
      | _ => unmatched more (tag :: style_stack)
      end
  end.

Definition error (markup : string) : bool :=
  unmatched (tags markup (Plain 0)) [].

End Markup.

(** A world for concrete runs: whether [gh] is on the PATH and the
    outcomes of the processes still to be spawned, in order. *)
Module Scenario.

Record world : Type := mkWorld {
  gh_path : option string;
  script : list run_outcome
}.

Definition which (name : string) (w : world) : option string :=
  if String.eqb name "gh" then gh_path w else None.

Definition subprocess_run (args : list string) (timeout : Z) (w : world)
  : run_outcome * world :=
  match script w with
  | o :: rest => (o, mkWorld (gh_path w) rest)
  | [] => (RunRaises (OSError "nothing left to run"), w)
  end.

(** A console that has printed nothing yet. *)
Definition start (w : world) : State world := mkState w [].

(** JSON text written with ['] where JSON has the double quote. *)
Fixpoint json_text (s : string) : string :=
  match s with
  | EmptyString => EmptyString
  | String c s' =>
      String (if Ascii.eqb c "'" then "034"%char else c) (json_text s')
  end.

(** The response to the reply mutation. *)
Definition reply_text : string :=
  json_text "{'data': {'addPullRequestReviewThreadReply': {'comment': {'id': 'c1', 'body': 'Fixed!'}}}}".

Definition reply_value : json :=
  JObj [("data",
         JObj [("addPullRequestReviewThreadReply",
                JObj [("comment",
                       JObj [("id", JStr "c1"); ("body", JStr "Fixed!")])])])].

(** Two review threads, the first open, the second resolved. *)
Definition thread (id : string) (resolved : bool) : json :=
  JObj [("id", JStr id); ("isResolved", JBool resolved);
        ("path", JStr "f.py"); ("line", JInt 10);
        ("comments",
         JObj [("nodes",
                JList [JObj [("author", JObj [("login", JStr "rev")]);
                             ("body", JStr "fix");
                             ("createdAt", JStr "now")]])])].

Definition threads_text : string :=
  json_text "{'data': {'repository': {'pullRequest': {'reviewThreads': {'nodes': [{'id': 't1', 'isResolved': false, 'path': 'f.py', 'line': 10, 'comments': {'nodes': [{'author': {'login': 'rev'}, 'body': 'fix', 'createdAt': 'now'}]}}, {'id': 't2', 'isResolved': true, 'path': 'f.py', 'line': 10, 'comments': {'nodes': [{'author': {'login': 'rev'}, 'body': 'fix', 'createdAt': 'now'}]}}]}}}}}".

Definition threads_value : json :=
  JObj [("data",
         JObj [("repository",
                JObj [("pullRequest",
                       JObj [("reviewThreads",
                              JObj [("nodes",
                                     JList [thread "t1" false;
                                            thread "t2" true])])])])])].

(** A response with errors and partial data. *)
Definition errors_text : string :=
  json_text "{'data': {'viewer': null}, 'errors': [{'message': 'Something went wrong'}, {'message': 'Bad field'}]}".

Definition errors_value : json :=
  JObj [("data", JObj [("viewer", JNull)]);
        ("errors", JList [JObj [("message", JStr "Something went wrong")];
                          JObj [("message", JStr "Bad field")]])].

(** A response with complete data and an empty error list. *)
Definition empty_errors_text : string :=
  json_text "{'data': {'viewer': {'login': 'octocat'}}, 'errors': []}".

Definition empty_errors_value : json :=
  JObj [("data", JObj [("viewer", JObj [("login", JStr "octocat")])]);
        ("errors", JList [])].

(** [json.loads] on the texts above; any other text of the scenarios,
    such as ["<html>Bad gateway</html>"], is not JSON. *)
Definition json_loads (text : string) : option json :=
  if String.eqb text reply_text then Some reply_value
  else if String.eqb text threads_text then Some threads_value
  else if String.eqb text errors_text then Some errors_value
  else if String.eqb text empty_errors_text then Some empty_errors_value
  else None.

(** [json.dumps] and [str] of compound values are not reached by the runs
    below; these stand in for them. *)
Definition json_dumps (data : json) : string := "<json>".

Definition repr_compound (v : json) : string := "<repr>".

(** [gh] installed, and the given outcomes for the processes to come. *)
Definition with_gh (outcomes : list run_outcome) : State world :=
  start (mkWorld (Some "/usr/bin/gh") outcomes).

(** Further texts and what [json.loads] makes of them. *)
Definition pr_info_text : string :=
  json_text "{'number': 42, 'url': 'https://github.com/a/b/pull/42', 'headRefName': 'feat/x'}".

Definition pr_info_value : json :=
  JObj [("number", JInt 42);
        ("url", JStr "https://github.com/a/b/pull/42");
        ("headRefName", JStr "feat/x")].

Definition pr_number_only_text : string := json_text "{'number': 42}".

Definition pr_number_only_value : json := JObj [("number", JInt 42)].

Definition pr_no_number_text : string :=
  json_text "{'url': 'https://github.com/a/b/pull/42'}".

Definition pr_no_number_value : json :=
  JObj [("url", JStr "https://github.com/a/b/pull/42")].

Definition resolve_text : string :=
  json_text "{'data': {'resolveReviewThread': {'thread': {'id': 'T_abc', 'isResolved': true}}}}".

Definition resolve_value : json :=
  JObj [("data",
         JObj [("resolveReviewThread",
                JObj [("thread",
                       JObj [("id", JStr "T_abc");
                             ("isResolved", JBool true)])])])].

(** A thread list wrapped as the response of the threads query. *)
Definition threads_response (nodes : list json) : json :=
  JObj [("data",
         JObj [("repository",
                JObj [("pullRequest",
                       JObj [("reviewThreads",
                              JObj [("nodes", JList nodes)])])])])].

Definition null_flag_text : string :=
  json_text "{'data': {'repository': {'pullRequest': {'reviewThreads': {'nodes': [{'id': 't1', 'isResolved': null}, {'id': 't2', 'isResolved': true}]}}}}}".

Definition null_flag_nodes : list json :=
  [JObj [("id", JStr "t1"); ("isResolved", JNull)];
   JObj [("id", JStr "t2"); ("isResolved", JBool true)]].

Definition missing_flag_text : string :=
  json_text "{'data': {'repository': {'pullRequest': {'reviewThreads': {'nodes': [{'id': 't1', 'isResolved': false}, {'id': 't2'}]}}}}}".

Definition missing_flag_nodes : list json :=
  [JObj [("id", JStr "t1"); ("isResolved", JBool false)];
   JObj [("id", JStr "t2")]].

Definition no_threads_text : string :=
  json_text "{'data': {'repository': {'pullRequest': {'reviewThreads': {'nodes': []}}}}}".

Definition no_pull_request_text : string :=
  json_text "{'data': {'repository': {'pullRequest': null}}}".

Definition no_pull_request_value : json :=
  JObj [("data", JObj [("repository", JObj [("pullRequest", JNull)])])].

Definition string_error_text : string := json_text "{'errors': ['boom']}".

Definition string_error_value : json := JObj [("errors", JList [JStr "boom"])].

Definition bare_error_text : string :=
  json_text "{'errors': [{'message': 'Bad field'}, {'type': 'NOT_FOUND'}]}".

Definition bare_error_value : json :=
  JObj [("errors", JList [JObj [("message", JStr "Bad field")];
                          JObj [("type", JStr "NOT_FOUND")]])].

(** A response whose error message quotes a closing tag. *)
Definition tag_error_text : string :=
  json_text "{'errors': [{'message': 'Unexpected [/x] in the body'}]}".

Definition tag_error_value : json :=
  JObj [("errors", JList [JObj [("message", JStr "Unexpected [/x] in the body")]])].

(** A response with complete data and [errors: null]. *)
Definition null_errors_text : string :=
  json_text "{'data': {'viewer': {'login': 'octocat'}}, 'errors': null}".

Definition null_errors_value : json :=
  JObj [("data", JObj [("viewer", JObj [("login", JStr "octocat")])]);
        ("errors", JNull)].

Definition json_loads_more (text : string) : option json :=
  if String.eqb text tag_error_text then Some tag_error_value
  else if String.eqb text null_errors_text then Some null_errors_value
  else if String.eqb text pr_info_text then Some pr_info_value
  else if String.eqb text pr_number_only_text then Some pr_number_only_value
  else if String.eqb text pr_no_number_text then Some pr_no_number_value
  else if String.eqb text resolve_text then Some resolve_value
  else if String.eqb text null_flag_text
       then Some (threads_response null_flag_nodes)
  else if String.eqb text missing_flag_text
       then Some (threads_response missing_flag_nodes)
  else if String.eqb text no_threads_text then Some (threads_response [])
  else if String.eqb text no_pull_request_text then Some no_pull_request_value
  else if String.eqb text string_error_text then Some string_error_value
  else if String.eqb text bare_error_text then Some bare_error_value
  else if String.eqb text "[]" then Some (JList [])
  else if String.eqb text "null" then Some JNull
  else json_loads text.

(** [str] of the one compound value the runs below render, the error
    entry without a message. *)
Definition repr_entry (v : json) : string := "{'type': 'NOT_FOUND'}".

(** A stand-in for [json.dumps] that shows the keys of an object. *)
Definition dumps_keys (data : json) : string :=
  match data with
  | JObj fields => "{" ++ PyStr.join ", " (map fst fields) ++ "}"
  | _ => "<json>"
  end.

(** A stand-in for the table blocks; the runs below do not reach them. *)
Definition render_table (v : json) : M world unit := echo "<table>".

(** Every tool is installed under [/usr/bin]. *)
Definition which_any (name : string) (w : world) : option string :=
  Some ("/usr/bin/" ++ name).

(** No [gh], and the given outcomes for the processes to come. *)
Definition without_gh (outcomes : list run_outcome) : State world :=
  start (mkWorld None outcomes).

(** rich for the runs below: it raises [MarkupError] on the lines whose
    tags do not match, and prints every other line. *)
Definition tags_error (line : string) : option exn :=
  if Markup.error line then Some MarkupError else None.

Definition rich : Rich :=
  {| print_error := tags_error;
     gh_hint_prints := eq_refl;
     graphql_heading_prints := eq_refl;
     no_threads_prints := eq_refl;
     no_checks_prints := eq_refl |}.

End Scenario.

(* ===================================================================== *)
(** ** Facts about strings *)
(* ===================================================================== *)

Module StrFacts.

Lemma app_assoc (a b c : string) : (a ++ b) ++ c = a ++ (b ++ c).
Proof. induction a as [|x a IH]; simpl; [reflexivity | now rewrite IH]. Qed.

Lemma app_nil_r (a : string) : a ++ "" = a.
Proof. induction a as [|x a IH]; simpl; [reflexivity | now rewrite IH]. Qed.

Lemma length_app (a b : string) :
  String.length (a ++ b) = String.length a + String.length b.
Proof. induction a as [|x a IH]; simpl; [reflexivity | now rewrite IH]. Qed.

Lemma substring_all (a : string) : substring 0 (String.length a) a = a.
Proof. induction a as [|x a IH]; simpl; [reflexivity | now rewrite IH]. Qed.

Lemma substring_app_l (a b : string) :
  substring 0 (String.length a) (a ++ b) = a.
Proof.
  induction a as [|x a IH]; simpl.
  - destruct b; reflexivity.
  - now rewrite IH.
Qed.

(** What a match consumed of [a ++ b] when [b] is left over is [a]. *)
Lemma consumed_app (a b : string) : Re.consumed (a ++ b) b = a.
Proof.
  unfold Re.consumed. rewrite length_app.
  replace (String.length a + String.length b - String.length b)
    with (String.length a) by lia.
  apply substring_app_l.
Qed.

Lemma has_char_app (c : ascii) (a b : string) :
  PyStr.has_char c (a ++ b) = PyStr.has_char c a || PyStr.has_char c b.
Proof.
  induction a as [|x a IH]; simpl; [reflexivity|].
  rewrite IH. now rewrite orb_assoc.
Qed.

End StrFacts.

(* ===================================================================== *)
(** ** Facts about the matcher *)
(* ===================================================================== *)

Module ReFacts.

Import StrFacts.

Lemma all_in_not_char (c : ascii) (s : string) :
  all_in (Re.not_char c) s = negb (PyStr.has_char c s).
Proof.
  induction s as [|x s IH]; simpl; [reflexivity|].
  rewrite IH. unfold Re.not_char. rewrite (Ascii.eqb_sym x c).
  now rewrite negb_orb.
Qed.

Lemma strip_prefix_app (p s : string) : strip_prefix p (p ++ s) = Some s.
Proof.
  induction p as [|a p IH]; simpl; [reflexivity|].
  now rewrite Ascii.eqb_refl.
Qed.

Lemma strip_prefix_some (p s rest : string) :
  strip_prefix p s = Some rest -> s = p ++ rest.
Proof.
  revert s. induction p as [|a p IH]; intros s H; simpl in *.
  - now injection H as ->.
  - destruct s as [|b s]; [discriminate|].
    destruct (Ascii.eqb_spec a b) as [->|]; [|discriminate].
    now rewrite (IH _ H).
Qed.

(** A literal matches exactly the texts that start with it. *)
Lemma run_lit (p s : string) (g : Re.groups) k :
  Re.run (Re.lit p) s g k =
  match strip_prefix p s with
  | Some rest => k rest g
  | None => None
  end.
Proof.
  revert s. induction p as [|a p IH]; intros s; simpl; [reflexivity|].
  destruct s as [|b s]; [reflexivity|].
  destruct (Ascii.eqb a b); [apply IH | reflexivity].
Qed.

Lemma at_end_cases (s : string) :
  Re.at_end s = true -> s = "" \/ s = String "010" "".
Proof.
  destruct s as [|c [|d s]]; simpl; intros H; try discriminate; auto.
  apply Ascii.eqb_eq in H. subst. auto.
Qed.

Lemma tail_ok_cases (s : string) :
  tail_ok s = true ->
  s = "" \/ s = String "010" "" \/ s = ".git" \/ s = ".git" ++ String "010" "".
Proof.
  unfold tail_ok. destruct (strip_prefix ".git" s) as [rest|] eqn:E.
  - apply strip_prefix_some in E. subst s. intros H.
    apply orb_true_iff in H. destruct H as [H|H].
    + apply at_end_cases in H. destruct H as [->| ->]; auto.
    + simpl in H. destruct rest; discriminate.
  - intros H. apply at_end_cases in H. tauto.
Qed.

(** Greedy repetition: whatever succeeds, it consumed characters of the
    class only. *)
Lemma star_greedy_sound cls (s : string) k (m : Re.groups) :
  Re.star_greedy cls s k = Some m ->
  exists a b, s = a ++ b /\ all_in cls a = true /\ k b = Some m.
Proof.
  induction s as [|c s IH]; simpl; intros H.
  - exists "", "". auto.
  - destruct (cls c) eqn:Hc.
    + destruct (Re.star_greedy cls s k) as [m'|] eqn:E.
      * injection H as ->. destruct (IH eq_refl) as (a & b & -> & Ha & Hk).
        exists (String c a), b. simpl. rewrite Hc, Ha. auto.
      * exists "", (String c s). auto.
    + exists "", (String c s). auto.
Qed.

(** Greedy repetition in front of something that cannot start inside the
    class: no backtracking point but the last one can succeed. *)
Lemma star_greedy_skip cls (a b : string) k :
  (forall c s', cls c = true -> k (String c s') = None) ->
  all_in cls a = true ->
  Re.star_greedy cls (a ++ b) k = Re.star_greedy cls b k.
Proof.
  intros Hk. induction a as [|c a IH]; simpl; intros Ha; [reflexivity|].
  apply andb_true_iff in Ha. destruct Ha as [Hc Ha].
  rewrite Hc, (IH Ha), (Hk c _ Hc).
  now destruct (Re.star_greedy cls b k).
Qed.

(** Lazy repetition: whatever succeeds, it consumed characters of the
    class only. *)
Lemma star_lazy_sound cls (s : string) k (m : Re.groups) :
  Re.star_lazy cls s k = Some m ->
  exists a b, s = a ++ b /\ all_in cls a = true /\ k b = Some m.
Proof.
  induction s as [|c s IH]; simpl; intros H.
  - destruct (k "") eqn:E; [|discriminate]. injection H as ->.
    exists "", "". auto.
  - destruct (k (String c s)) as [m'|] eqn:E.
    + injection H as ->. exists "", (String c s). auto.
    + destruct (cls c) eqn:Hc; [|discriminate].
      destruct (IH H) as (a & b & -> & Ha & Hk).
      exists (String c a), b. simpl. rewrite Hc, Ha. auto.
Qed.

(** Lazy repetition stops at the first place where the rest matches. *)
Lemma star_lazy_first cls (a b : string) k (m : Re.groups) :
  all_in cls a = true ->
  (forall a1 a2, a = a1 ++ a2 -> a2 <> "" -> k (a2 ++ b) = None) ->
  k b = Some m ->
  Re.star_lazy cls (a ++ b) k = Some m.
Proof.
  intros Ha Hmin Hb. induction a as [|c a IH].
  - simpl. destruct b; simpl; now rewrite Hb.
  - simpl in Ha. apply andb_true_iff in Ha. destruct Ha as [Hc Ha].
    assert (H0 : k (String c (a ++ b)) = None)
      by (apply (Hmin "" (String c a) eq_refl); discriminate).
    cbn [append Re.star_lazy]. rewrite H0, Hc. apply IH; [assumption|].
    intros a1 a2 -> Hne. apply (Hmin (String c a1) a2); auto.
Qed.

End ReFacts.

(* ===================================================================== *)
(** ** The remote URL patterns *)
(* ===================================================================== *)

Module RemoteFacts.

Import StrFacts ReFacts.

Lemma ssh_pattern_eq : ssh_pattern = remote_pattern "git@github.com:".
Proof. reflexivity. Qed.

Lemma https_pattern_eq : https_pattern = remote_pattern "https://github.com/".
Proof. reflexivity. Qed.

Lemma not_slash_true (c : ascii) :
  Re.not_char "/" c = true -> Ascii.eqb "/" c = false.
Proof.
  unfold Re.not_char. rewrite (Ascii.eqb_sym c "/").
  now destruct (Ascii.eqb "/" c).
Qed.

Lemma match_remote_path (p url : string) :
  Re.match_ (remote_pattern p) url =
  match strip_prefix p url with
  | Some path => run_path path
  | None => None
  end.
Proof.
  unfold Re.match_, remote_pattern, Re.cat.
  cbn [fold_right]. cbn [Re.run]. now rewrite run_lit.
Qed.

(** After the second group the matcher is left with the end of the
    pattern, [(?:\.git)?$]. *)
Lemma run_repo_tail (s : string) (g : Re.groups) :
  match
    Re.run (Re.lit ".git") s g
      (fun s' g' => if Re.at_end s' then Some g' else None)
  with
  | Some g' => Some g'
  | None => if Re.at_end s then Some g else None
  end = if tail_ok s then Some g else None.
Proof.
  rewrite run_lit. unfold tail_ok.
  destruct (strip_prefix ".git" s) as [rest|].
  - destruct (Re.at_end rest); simpl; [reflexivity|].
    now destruct (Re.at_end s).
  - now destruct (Re.at_end s).
Qed.

(** Completeness: a path [owner/repo] followed by an accepted ending
    matches, with the two groups as written, provided no shorter
    non-empty start of [repo] is already followed by an accepted ending. *)
Lemma run_path_complete (owner repo sfx : string) :
  owner <> "" -> repo <> "" ->
  PyStr.has_char "/" owner = false ->
  PyStr.has_char "/" repo = false ->
  tail_ok sfx = true ->
  (forall r1 r2, repo = r1 ++ r2 -> r1 <> "" -> r2 <> "" ->
                 tail_ok (r2 ++ sfx) = false) ->
  run_path (owner ++ "/" ++ repo ++ sfx) = Some [(2, repo); (1, owner)].
Proof.
  intros Ho Hr Hso Hsr Hsfx Hmin.
  destruct owner as [|c o]; [congruence|].
  destruct repo as [|d r]; [congruence|].
  assert (Ao : all_in (Re.not_char "/") (String c o) = true)
    by (rewrite all_in_not_char, Hso; reflexivity).
  assert (Ar : all_in (Re.not_char "/") (String d r) = true)
    by (rewrite all_in_not_char, Hsr; reflexivity).
  simpl in Ao, Ar. apply andb_true_iff in Ao, Ar.
  destruct Ao as [Hc Ao], Ar as [Hd Ar].
  unfold run_path, Re.cat. cbn [fold_right]. cbn [Re.run].
  cbn [append Re.plus]. rewrite Hc.
  rewrite star_greedy_skip; [| |assumption].
  2:{ intros x s' Hx. now rewrite (not_slash_true x Hx). }
  cbn [append Re.star_greedy]. change (Re.not_char "/" "/") with false.
  cbv iota. change (Ascii.eqb "/" "/") with true. cbv iota.
  cbn [Re.plus]. rewrite Hd.
  change (String c (o ++ String "/" (String d (r ++ sfx))))
    with (String c o ++ String "/" (String d (r ++ sfx))).
  rewrite consumed_app.
  apply star_lazy_first; [assumption| |].
  - intros a1 a2 -> Hne. rewrite run_repo_tail.
    rewrite (Hmin (String d a1) a2); [reflexivity|reflexivity|discriminate|assumption].
  - rewrite run_repo_tail, Hsfx.
    change (String d (r ++ sfx)) with (String d r ++ sfx).
    now rewrite consumed_app.
Qed.

(** Soundness: whatever matches has the shape [owner/repo] followed by an
    accepted ending, and the groups are those two parts. *)
Lemma run_path_sound (s : string) (m : Re.groups) :
  run_path s = Some m ->
  exists owner repo sfx,
    s = owner ++ "/" ++ repo ++ sfx /\
    owner <> "" /\ repo <> "" /\
    PyStr.has_char "/" owner = false /\
    PyStr.has_char "/" repo = false /\
    tail_ok sfx = true /\
    m = [(2, repo); (1, owner)].
Proof.
  unfold run_path, Re.cat. cbn [fold_right]. cbn [Re.run].
  destruct s as [|c s]; [discriminate|]. cbn [Re.plus].
  destruct (Re.not_char "/" c) eqn:Hc; [|discriminate].
  intros H. apply star_greedy_sound in H.
  destruct H as (o & b & -> & Ao & H).
  destruct b as [|x b]; [discriminate|].
  destruct (Ascii.eqb_spec "/" x) as [<-|]; [|discriminate].
  destruct b as [|d b]; [discriminate|]. cbn [Re.plus] in H.
  destruct (Re.not_char "/" d) eqn:Hd; [|discriminate].
  apply star_lazy_sound in H.
  destruct H as (r & sfx & -> & Ar & H).
  rewrite run_repo_tail in H.
  destruct (tail_ok sfx) eqn:Hsfx; [|discriminate].
  injection H as <-.
  exists (String c o), (String d r), sfx.
  assert (Ao' : all_in (Re.not_char "/") (String c o) = true)
    by (simpl; now rewrite Hc, Ao).
  assert (Ar' : all_in (Re.not_char "/") (String d r) = true)
    by (simpl; now rewrite Hd, Ar).
  rewrite all_in_not_char in Ao', Ar'.
  apply negb_true_iff in Ao', Ar'.
  repeat split; try assumption; try discriminate.
  change (String d (r ++ sfx)) with (String d r ++ sfx).
  rewrite consumed_app.
  change (String c (o ++ String "/" (String d r ++ sfx)))
    with (String c o ++ String "/" (String d r ++ sfx)).
  now rewrite consumed_app.
Qed.

End RemoteFacts.

(* ===================================================================== *)
(** ** Stripped text, suffixes and path segments *)
(* ===================================================================== *)

Module ShapeFacts.

Import StrFacts ReFacts.

Lemma app_last_ne (a : string) (c : ascii) : a ++ String c "" <> "".
Proof. destruct a; discriminate. Qed.

(** [rstrip] leaves no whitespace at the end. *)
Lemma rstrip_last (s a : string) (c : ascii) :
  PyStr.rstrip s = a ++ String c "" -> PyStr.isspace c = false.
Proof.
  revert a. induction s as [|x s IH]; intros a H; simpl in H.
  - symmetry in H. now apply app_last_ne in H.
  - destruct (PyStr.rstrip s) as [|y r] eqn:E.
    + destruct (PyStr.isspace x) eqn:Hx.
      * symmetry in H. now apply app_last_ne in H.
      * destruct a as [|a0 a]; simpl in H.
        -- now injection H as <-.
        -- injection H as _ H. symmetry in H. now apply app_last_ne in H.
    + destruct a as [|a0 a]; simpl in H; [discriminate|].
      injection H as _ H. now apply (IH a).
Qed.

Lemma strip_last (s a : string) (c : ascii) :
  PyStr.strip s = a ++ String c "" -> PyStr.isspace c = false.
Proof. apply rstrip_last. Qed.

Lemma substring_skip (a b : string) (n : nat) :
  substring (String.length a) n (a ++ b) = substring 0 n b.
Proof. induction a as [|x a IH]; simpl; [reflexivity | apply IH]. Qed.

Lemma endswith_app (a b : string) : PyStr.endswith (a ++ b) b = true.
Proof.
  unfold PyStr.endswith. rewrite length_app.
  replace (String.length a + String.length b - String.length b)
    with (String.length a) by lia.
  rewrite substring_skip, substring_all, String.eqb_refl.
  rewrite andb_true_r. apply Nat.leb_le. lia.
Qed.

Lemma segments_one (s : string) :
  PyStr.has_char "/" s = false -> segments s = [s].
Proof.
  induction s as [|c s IH]; cbn [segments PyStr.has_char]; [reflexivity|].
  rewrite (Ascii.eqb_sym c "/").
  destruct (Ascii.eqb "/" c); cbn [orb]; [discriminate|].
  intros H. now rewrite (IH H).
Qed.

Lemma segments_app (a b : string) :
  PyStr.has_char "/" a = false ->
  segments (a ++ "/" ++ b) = a :: segments b.
Proof.
  induction a as [|c a IH]; [reflexivity|].
  cbn [append segments PyStr.has_char].
  rewrite (Ascii.eqb_sym c "/").
  destruct (Ascii.eqb "/" c); cbn [orb]; [discriminate|].
  intros H. specialize (IH H). cbn [append] in IH. now rewrite IH.
Qed.

Lemma tail_ok_no_slash (s : string) :
  tail_ok s = true -> PyStr.has_char "/" s = false.
Proof.
  intros H. apply tail_ok_cases in H.
  destruct H as [->|[->|[->| ->]]]; reflexivity.
Qed.

(** What the matcher accepts after the prefix is a path of two non-empty
    segments. *)
Lemma run_path_two_segments (path : string) (m : Re.groups) :
  run_path path = Some m -> two_segments path = true.
Proof.
  intros H. apply RemoteFacts.run_path_sound in H.
  destruct H as (owner & repo & sfx & -> & Ho & Hr & Hso & Hsr & Hsfx & _).
  unfold two_segments. rewrite (segments_app _ _ Hso).
  rewrite segments_one.
  2:{ rewrite has_char_app, Hsr, (tail_ok_no_slash _ Hsfx). reflexivity. }
  destruct owner; [congruence|]. destruct repo; [congruence|]. reflexivity.
Qed.

(** No proper non-empty start of [repo] is followed by an accepted
    ending when the text ends in [repo ++ ".git"]. *)
Lemma minimal_dot_git (r2 : string) :
  r2 <> "" -> tail_ok (r2 ++ ".git") = false.
Proof.
  intros Hne. destruct (tail_ok (r2 ++ ".git")) eqn:E; [|reflexivity].
  exfalso. apply tail_ok_cases in E.
  destruct r2 as [|c1 [|c2 r2]]; [congruence| |].
  - simpl in E. destruct E as [E|[E|[E|E]]]; try discriminate.
  - destruct E as [E|[E|[E|E]]]; apply (f_equal String.length) in E;
      rewrite length_app in E; simpl in E; lia.
Qed.

End ShapeFacts.

(* ===================================================================== *)
(** ** Facts about [rprint] *)
(* ===================================================================== *)

Section RichFacts.

Context {W : Type} {rich : Rich}.

(** What [rprint] does, by what rich makes of the line. *)
Lemma rprint_cases (s : string) (st : State W) :
  rprint s st =
  match print_error s with
  | Some e => (Raise e, st)
  | None => (Ok tt, mkState (world st) (console st ++ [s])%list)
  end.
Proof. unfold rprint. now destruct (print_error s). Qed.

(** An error line followed by its [raise]. *)
Lemma rprint_then_raise {A : Type} (s : string) (e : exn) (st : State W) :
  (rprint s ;;; raise e) st =
  match print_error s with
  | Some e' => (@Raise A e', st)
  | None => (Raise e, mkState (world st) (console st ++ [s])%list)
  end.
Proof. unfold bind. rewrite rprint_cases. now destruct (print_error s). Qed.

Lemma rprint_then_raise_not_ok {A : Type} (s : string) (e : exn)
    (st st' : State W) (a : A) :
  (rprint s ;;; raise e) st <> (Ok a, st').
Proof. rewrite rprint_then_raise. now destruct (print_error s). Qed.

Lemma rprint_prints (s : string) (st : State W) :
  print_error s = None ->
  rprint s st = (Ok tt, mkState (world st) (console st ++ [s])%list).
Proof. intros H. now rewrite rprint_cases, H. Qed.

End RichFacts.

(* ===================================================================== *)
(** ** The remote URL parser ([get_repo_info]) *)
(* ===================================================================== *)

Section ParseRemote.

Import StrFacts ReFacts ShapeFacts.

Context {W : Type} {rich : Rich}.

Lemma ssh_prefix_not_https (path : string) :
  strip_prefix "https://github.com/" ("git@github.com:" ++ path) = None.
Proof. reflexivity. Qed.

Lemma https_prefix_not_ssh (path : string) :
  strip_prefix "git@github.com:" ("https://github.com/" ++ path) = None.
Proof. reflexivity. Qed.

(** A stripped text made of a known prefix and a path that the matcher
    accepts is parsed into the two groups. *)
Lemma parse_remote_path (st : State W) (raw prefix path owner repo : string) :
  prefix = "git@github.com:" \/ prefix = "https://github.com/" ->
  PyStr.strip raw = prefix ++ path ->
  run_path path = Some [(2, repo); (1, owner)] ->
  parse_remote raw st = (Ok (owner, repo), st).
Proof.
  intros Hp Hs Hm. unfold parse_remote. rewrite Hs.
  rewrite RemoteFacts.ssh_pattern_eq, RemoteFacts.https_pattern_eq.
  rewrite !RemoteFacts.match_remote_path.
  destruct Hp as [-> | ->].
  - now rewrite strip_prefix_app, Hm.
  - now rewrite https_prefix_not_ssh, strip_prefix_app, Hm.
Qed.

(** Whatever [parse_remote] returns comes from a match of the path. *)
Lemma parse_remote_ok_inv (st st' : State W) (raw owner repo : string) :
  parse_remote raw st = (Ok (owner, repo), st') ->
  exists prefix path,
    (prefix = "git@github.com:" \/ prefix = "https://github.com/") /\
    PyStr.strip raw = prefix ++ path /\
    run_path path = Some [(2, repo); (1, owner)].
Proof.
  unfold parse_remote.
  rewrite RemoteFacts.ssh_pattern_eq, RemoteFacts.https_pattern_eq.
  rewrite !RemoteFacts.match_remote_path.
  destruct (strip_prefix "git@github.com:" (PyStr.strip raw))
    as [path|] eqn:E1.
  - apply strip_prefix_some in E1.
    destruct (run_path path) as [m|] eqn:Em.
    + intros H. exists "git@github.com:", path.
      destruct (RemoteFacts.run_path_sound _ _ Em)
        as (o & r & sfx & _ & _ & _ & _ & _ & _ & ->).
      unfold ret in H. cbn in H. injection H as -> -> _. auto.
    + rewrite E1, ssh_prefix_not_https. intros H.
      now apply rprint_then_raise_not_ok in H.
  - destruct (strip_prefix "https://github.com/" (PyStr.strip raw))
      as [path|] eqn:E2;
      [|intros H; now apply rprint_then_raise_not_ok in H].
    apply strip_prefix_some in E2.
    destruct (run_path path) as [m|] eqn:Em;
      [|intros H; now apply rprint_then_raise_not_ok in H].
    intros H. exists "https://github.com/", path.
    destruct (RemoteFacts.run_path_sound _ _ Em)
      as (o & r & sfx & _ & _ & _ & _ & _ & _ & ->).
    unfold ret in H. cbn in H. injection H as -> -> _. auto.
Qed.

(** [get_repo_info] is [parse_remote] on what [git remote get-url origin]
    printed. *)
Lemma get_repo_info_parse_remote
    (subprocess_run : list string -> Z -> W -> run_outcome * W)
    (st : State W) (stdout stderr : string) (w1 : W) :
  subprocess_run ["git"; "remote"; "get-url"; "origin"] 30%Z (world st)
  = (Completed 0 stdout stderr, w1) ->
  get_repo_info subprocess_run st
  = parse_remote stdout (mkState w1 (console st)).
Proof.
  intros H. unfold get_repo_info, bind at 1, _run_command, bind, spawn.
  now rewrite H.
Qed.

End ParseRemote.

(** C3.  A remote URL of the shape [git@github.com:<owner>/<repo>[.git]]
    or [https://github.com/<owner>/<repo>[.git]], owner and repository
    non-empty and free of ["/"], is parsed into exactly that owner and
    that repository: with the [.git] suffix the suffix is dropped, and
    without it (the repository part then not ending in [.git] itself) the
    repository is returned whole.  The URL is the text read from git with
    the surrounding whitespace stripped; nothing is printed. *)
Theorem parse_remote_accepts :
  forall (W : Type) (rich : Rich) (st : State W)
         (raw prefix owner repo : string),
    prefix = "git@github.com:" \/ prefix = "https://github.com/" ->
    owner <> "" -> repo <> "" ->
    PyStr.has_char "/" owner = false ->
    PyStr.has_char "/" repo = false ->
    (PyStr.strip raw = prefix ++ owner ++ "/" ++ repo ++ ".git" ->
     parse_remote raw st = (Ok (owner, repo), st))
    /\
    (PyStr.strip raw = prefix ++ owner ++ "/" ++ repo ->
     PyStr.endswith repo ".git" = false ->
     parse_remote raw st = (Ok (owner, repo), st)).
Proof.
  intros W rich st raw prefix owner repo Hp Ho Hr Hso Hsr. split.
  - intros Hs. apply (parse_remote_path st raw prefix _ owner repo Hp Hs).
    apply RemoteFacts.run_path_complete; try assumption; [reflexivity|].
    intros r1 r2 _ _ Hr2. now apply ShapeFacts.minimal_dot_git.
  - intros Hs Hgit.
    apply (parse_remote_path st raw prefix (owner ++ "/" ++ repo ++ "")
             owner repo Hp).
    { now rewrite StrFacts.app_nil_r. }
    apply RemoteFacts.run_path_complete; try assumption; [reflexivity|].
    intros r1 r2 -> Hr1 Hr2. rewrite StrFacts.app_nil_r.
    destruct (tail_ok r2) eqn:E; [|reflexivity]. exfalso.
    assert (Hnl : forall a, PyStr.strip raw <> a ++ String "010" "").
    { intros a Ha. apply ShapeFacts.strip_last in Ha. discriminate. }
    apply ReFacts.tail_ok_cases in E.
    destruct E as [E|[E|[E|E]]]; subst r2.
    + congruence.
    + apply (Hnl (prefix ++ owner ++ "/" ++ r1)). rewrite Hs.
      now rewrite !StrFacts.app_assoc.
    + now rewrite ShapeFacts.endswith_app in Hgit.
    + apply (Hnl (prefix ++ owner ++ "/" ++ r1 ++ ".git")). rewrite Hs.
      now rewrite !StrFacts.app_assoc.
Qed.

(** The scenarios of C3: the text git prints for
    [git@github.com:bob/cool-project.git] gives owner [bob] and
    repository [cool-project]; an HTTPS remote without the suffix is
    parsed alike. *)
Lemma parse_remote_accepts_witness :
  parse_remote (rich := Scenario.rich)
    (String.append "git@github.com:bob/cool-project.git" (String "010" ""))
    (mkState tt [])
    = (Ok ("bob", "cool-project"), mkState tt [])
  /\
  parse_remote (rich := Scenario.rich)
    "https://github.com/alice/my-repo" (mkState tt [])
    = (Ok ("alice", "my-repo"), mkState tt []).
Proof.
  split.
  - apply (proj1 (parse_remote_accepts unit Scenario.rich (mkState tt []) _
                    "git@github.com:" "bob" "cool-project"
                    (or_introl eq_refl)
                    ltac:(discriminate) ltac:(discriminate)
                    eq_refl eq_refl)).
    reflexivity.
  - apply (proj2 (parse_remote_accepts unit Scenario.rich (mkState tt []) _
                    "https://github.com/" "alice" "my-repo"
                    (or_intror eq_refl)
                    ltac:(discriminate) ltac:(discriminate)
                    eq_refl eq_refl)); reflexivity.
Defined.

(** C4.  A remote URL that does not have the accepted shape (another
    host in place of the fixed prefix, an owner or repository segment
    missing or empty, or more path segments than two) is never parsed
    into an owner/repository pair.  [parse_remote] hands the error
    message naming the stripped URL to [rprint]: when rich prints the
    line, [typer.Exit(1)] follows; when rich raises on it (a URL holding
    text that reads as a closing tag), that exception leaves in place of
    the error exit, and nothing is printed. *)
Theorem parse_remote_rejects :
  forall (W : Type) (rich : Rich) (st : State W) (raw : string),
    remote_shape (PyStr.strip raw) = false ->
    let line :=
      ("[red]Error:[/red] Could not parse owner/repo from remote URL: "
       ++ PyStr.strip raw)%string in
    parse_remote raw st =
      match print_error line with
      | Some e => (Raise e, st)
      | None =>
          (Raise (Exit 1), mkState (world st) (console st ++ [line])%list)
      end.
Proof.
  intros W rich st raw Hshape line. unfold parse_remote.
  rewrite RemoteFacts.ssh_pattern_eq, RemoteFacts.https_pattern_eq.
  rewrite !RemoteFacts.match_remote_path.
  unfold remote_shape in Hshape.
  destruct (strip_prefix "git@github.com:" (PyStr.strip raw))
    as [path|] eqn:E1.
  - destruct (run_path path) as [m|] eqn:Em.
    + apply ShapeFacts.run_path_two_segments in Em. congruence.
    + apply ReFacts.strip_prefix_some in E1. rewrite E1.
      rewrite ssh_prefix_not_https. rewrite <- E1.
      apply rprint_then_raise.
  - destruct (strip_prefix "https://github.com/" (PyStr.strip raw))
      as [path|] eqn:E2; [|apply rprint_then_raise].
    destruct (run_path path) as [m|] eqn:Em; [|apply rprint_then_raise].
    apply ShapeFacts.run_path_two_segments in Em. congruence.
Qed.

(** C4 at work: the remote [https://gitlab.com/x/[/y]] has the wrong
    host and is rejected, but by rich's [MarkupError] on the error line,
    whose [[/y]] closes no open tag; the error exit is not reached and
    nothing is printed.  The remote of the scenario,
    [https://gitlab.com/x/y.git], gets its error line and the exit. *)
Lemma parse_remote_rejects_witness :
  parse_remote (rich := Scenario.rich)
    (String.append "https://gitlab.com/x/[/y]" (String "010" ""))
    (mkState tt [])
  = (Raise MarkupError, mkState tt [])
  /\
  parse_remote (rich := Scenario.rich)
    (String.append "https://gitlab.com/x/y.git" (String "010" ""))
    (mkState tt [])
  = (Raise (Exit 1),
     mkState tt
       ["[red]Error:[/red] Could not parse owner/repo from remote URL: https://gitlab.com/x/y.git"]).
Proof.
  split.
  - apply (parse_remote_rejects unit Scenario.rich (mkState tt [])
             (String.append "https://gitlab.com/x/[/y]" (String "010" ""))).
    reflexivity.
  - apply (parse_remote_rejects unit Scenario.rich (mkState tt [])
             (String.append "https://gitlab.com/x/y.git" (String "010" ""))).
    reflexivity.
Defined.

(** C9.  Every pair [parse_remote] returns has a non-empty owner and a
    non-empty repository, neither containing the path separator ["/"]. *)
Theorem parse_remote_fields :
  forall (W : Type) (rich : Rich) (st st' : State W)
         (raw owner repo : string),
    parse_remote raw st = (Ok (owner, repo), st') ->
    owner <> "" /\ repo <> "" /\
    PyStr.has_char "/" owner = false /\
    PyStr.has_char "/" repo = false.
Proof.
  intros W rich st st' raw owner repo H.
  apply parse_remote_ok_inv in H.
  destruct H as (prefix & path & _ & _ & Hm).
  apply RemoteFacts.run_path_sound in Hm.
  destruct Hm as (o & r & sfx & _ & Ho & Hr & Hso & Hsr & _ & E).
  injection E as -> ->. auto.
Qed.

Lemma parse_remote_fields_witness :
  "alice" <> "" /\ "my-repo" <> "" /\
  PyStr.has_char "/" "alice" = false /\
  PyStr.has_char "/" "my-repo" = false.
Proof.
  apply (parse_remote_fields unit Scenario.rich (mkState tt []) (mkState tt [])
           "https://github.com/alice/my-repo.git" "alice" "my-repo").
  reflexivity.
Defined.

(* ===================================================================== *)
(** ** The GraphQL client ([_run_graphql]) *)
(* ===================================================================== *)

Section GraphqlCmd.

Variable repr_compound : json -> string.

Lemma graphql_cmd_flat (query : string) (variables : list (string * json)) :
  graphql_cmd repr_compound query variables =
  (["gh"; "api"; "graphql"; "-f"; ("query=" ++ query)%string]
   ++ flat_map (encode_variable repr_compound) variables)%list.
Proof.
  unfold graphql_cmd.
  generalize ["gh"; "api"; "graphql"; "-f"; "query=" ++ query].
  induction variables as [|[key value] rest IH]; intros acc; simpl.
  - now rewrite List.app_nil_r.
  - destruct (Py.isinstance_int value); rewrite IH, <- List.app_assoc;
      reflexivity.
Qed.

Lemma encoded_nth (variables : list (string * json)) (i : nat)
    (kv : string * json) :
  nth_error variables i = Some kv ->
  nth_error (flat_map (encode_variable repr_compound) variables) (2 * i)
    = Some (if Py.isinstance_int (snd kv) then "-F" else "-f") /\
  nth_error (flat_map (encode_variable repr_compound) variables) (2 * i + 1)
    = Some (fst kv ++ "=" ++ str repr_compound (snd kv)).
Proof.
  revert i. induction variables as [|x rest IH]; intros [|i] H;
    simpl in H; try discriminate.
  - injection H as ->. split; reflexivity.
  - replace (2 * S i) with (S (S (2 * i))) by lia.
    cbn [flat_map encode_variable app nth_error Nat.add].
    apply (IH i H).
Qed.

(** C5.  In the argument vector built for [gh api graphql], the entry
    number [i] of the variables takes the two places after the five
    leading arguments and the earlier entries: the flag is [-F] exactly
    when the value is an [int] instance and [-f] otherwise, followed by
    [key=value].  An integer is passed as [-F key=<decimal>], a string as
    [-f key=<text>]; for [{owner: "a", repo: "b", pr: 7}] the vector ends
    in [-f owner=a -f repo=b -F pr=7]. *)
Theorem graphql_cmd_encoding :
  (forall (query : string) (variables : list (string * json)) (i : nat)
          (key : string) (value : json),
      nth_error variables i = Some (key, value) ->
      let cmd := graphql_cmd repr_compound query variables in
      (nth_error cmd (5 + 2 * i)
         = Some (if Py.isinstance_int value then "-F" else "-f") /\
       nth_error cmd (5 + 2 * i + 1)
         = Some (key ++ "=" ++ str repr_compound value)) /\
      (forall n, value = JInt n ->
         nth_error cmd (5 + 2 * i) = Some "-F" /\
         nth_error cmd (5 + 2 * i + 1) = Some (key ++ "=" ++ PyStr.of_int n)) /\
      (forall s, value = JStr s ->
         nth_error cmd (5 + 2 * i) = Some "-f" /\
         nth_error cmd (5 + 2 * i + 1) = Some (key ++ "=" ++ s)))
  /\
  (forall query : string,
      graphql_cmd repr_compound query
        [("owner", JStr "a"); ("repo", JStr "b"); ("pr", JInt 7)]
      = ["gh"; "api"; "graphql"; "-f"; "query=" ++ query;
         "-f"; "owner=a"; "-f"; "repo=b"; "-F"; "pr=7"]).
Proof.
  split; [|reflexivity].
  intros query variables i key value H cmd.
  assert (E : nth_error cmd (5 + 2 * i)
                = Some (if Py.isinstance_int value then "-F" else "-f") /\
              nth_error cmd (5 + 2 * i + 1)
                = Some (key ++ "=" ++ str repr_compound value)).
  { subst cmd. rewrite graphql_cmd_flat.
    destruct (encoded_nth variables i (key, value) H) as [E1 E2].
    split.
    - rewrite nth_error_app2 by (simpl; lia).
      replace (5 + 2 * i - _) with (2 * i) by (simpl; lia). exact E1.
    - rewrite nth_error_app2 by (simpl; lia).
      replace (5 + 2 * i + 1 - _) with (2 * i + 1) by (simpl; lia).
      exact E2. }
  split; [exact E|]. destruct E as [E1 E2].
  split; intros x ->; split; assumption.
Qed.

End GraphqlCmd.

(** The test case of C5: [pr], an integer, is the third variable. *)
Lemma graphql_cmd_encoding_witness :
  nth_error
    (graphql_cmd (fun _ => "") "q"
       [("owner", JStr "a"); ("repo", JStr "b"); ("pr", JInt 7)]) 9
    = Some "-F" /\
  nth_error
    (graphql_cmd (fun _ => "") "q"
       [("owner", JStr "a"); ("repo", JStr "b"); ("pr", JInt 7)]) 10
    = Some "pr=7".
Proof.
  exact (proj1 (proj2 (proj1 (graphql_cmd_encoding (fun _ => "")) "q"
                  [("owner", JStr "a"); ("repo", JStr "b"); ("pr", JInt 7)]
                  2 "pr" (JInt 7) eq_refl)) 7%Z eq_refl).
Defined.

Section RunGraphql.

Context {W : Type} {rich : Rich}.
Variable which : string -> W -> option string.
Variable subprocess_run : list string -> Z -> W -> run_outcome * W.
Variable json_loads : string -> option json.
Variable repr_compound : json -> string.

#[local] Abbreviation run_graphql :=
  (_run_graphql which subprocess_run json_loads repr_compound).
#[local] Abbreviation gh_prints :=
  (gh_answers which subprocess_run repr_compound).

(** Up to the parsed response, [_run_graphql] prints nothing. *)
Lemma run_graphql_parsed query variables st text w1 data :
  gh_prints query variables st text w1 ->
  json_loads text = Some data ->
  run_graphql query variables st
  = check_errors repr_compound data (mkState w1 (console st)).
Proof.
  intros [[path Hw] [stderr Hr]] Hl.
  unfold _run_graphql, check_errors, bind at 1, require_gh.
  rewrite Hw. cbn [ret].
  unfold bind at 1, _run_command, bind at 1, spawn. rewrite Hr.
  cbn. unfold bind at 1, lift at 1. rewrite Hl. reflexivity.
Qed.

Lemma comprehension_messages (errs : list json) (msgs : list string) :
  Forall2 error_with_message errs msgs ->
  comprehension (error_message repr_compound) errs = Ok (map JStr msgs).
Proof.
  induction 1 as [|e m errs msgs (fields & -> & Hm) _ IH]; simpl.
  - reflexivity.
  - rewrite Hm. fold (error_message repr_compound).
    now rewrite IH.
Qed.

Lemma join_values_strs (sep : string) (msgs : list string) :
  join_values sep (map JStr msgs) = Ok (PyStr.join sep msgs).
Proof.
  unfold join_values.
  assert (E : comprehension
                (fun m => match m with JStr s => Ok s | _ => Raise TypeError end)
                (map JStr msgs) = Ok msgs).
  { induction msgs as [|m msgs IH]; simpl; [reflexivity | now rewrite IH]. }
  now rewrite E.
Qed.

(** An [errors] list of well-formed entries, empty or not, has its line
    handed to [rprint]; the GraphQL error exit follows when rich prints
    it. *)
Lemma check_errors_line (st : State W) fields errs msgs :
  Py.lookup "errors" fields = Some (JList errs) ->
  Forall2 error_with_message errs msgs ->
  check_errors repr_compound (JObj fields) st
  = match print_error ("[red]GraphQL error:[/red] " ++ PyStr.join "; " msgs) with
    | Some e => (Raise e, st)
    | None =>
        (Raise (Exit 1),
         mkState (world st)
           (console st ++
            [("[red]GraphQL error:[/red] " ++ PyStr.join "; " msgs)%string])%list)
    end.
Proof.
  intros Hl Hm.
  unfold check_errors, bind at 1, lift at 1, Py.contains. rewrite Hl.
  unfold bind at 1, lift at 1, Py.subscript. rewrite Hl.
  unfold bind at 1, lift at 1. cbn [Py.iterate].
  unfold bind at 1, lift at 1. rewrite (comprehension_messages _ _ Hm).
  unfold bind at 1, lift at 1. rewrite join_values_strs.
  apply rprint_then_raise.
Qed.



(** Without the key the parsed value is returned as it is. *)
Lemma check_errors_absent (st : State W) data :
  Py.contains "errors" data = Ok false ->
  check_errors repr_compound data st = (Ok data, st).
Proof.
  intros Hc. unfold check_errors, bind, lift. now rewrite Hc.
Qed.

(** C2.  When the response parses to an object whose [errors] entry is a
    non-empty list of errors with messages, [_run_graphql] does not
    return the parsed value, whatever else (a [data] field included) the
    object holds: it hands [GraphQL error:] followed by the messages
    joined with ["; "] to [rprint].  When rich prints the line,
    [typer.Exit(1)] follows.  When rich raises on it (a message holding
    text that reads as a closing tag), that exception leaves the function
    in place of the error exit, and the messages are not printed. *)
Theorem run_graphql_errors_fail :
  forall query variables (st : State W) text w1 fields errs msgs,
    gh_prints query variables st text w1 ->
    json_loads text = Some (JObj fields) ->
    Py.lookup "errors" fields = Some (JList errs) ->
    errs <> [] ->
    Forall2 error_with_message errs msgs ->
    let line :=
      ("[red]GraphQL error:[/red] " ++ PyStr.join "; " msgs)%string in
    run_graphql query variables st
    = match print_error line with
      | Some e => (Raise e, mkState w1 (console st))
      | None => (Raise (Exit 1), mkState w1 (console st ++ [line])%list)
      end.
Proof.
  intros query variables st text w1 fields errs msgs Hg Hl He _ Hm line.
  rewrite (run_graphql_parsed _ _ _ _ _ _ Hg Hl).
  now rewrite (check_errors_line _ _ _ _ He Hm).
Qed.


(** Amended C7.  When the text printed by [gh] is not JSON,
    [_run_graphql] returns no value and prints nothing: the
    [json.JSONDecodeError] of [json.loads] leaves the function as it is,
    translated neither into [GhError] nor into the error exit. *)
Theorem run_graphql_not_json :
  forall query variables (st : State W) text w1,
    gh_prints query variables st text w1 ->
    json_loads text = None ->
    run_graphql query variables st
    = (Raise JSONDecodeError, mkState w1 (console st)) /\
    module_error JSONDecodeError = false.
Proof.
  intros query variables st text w1 [[path Hw] [stderr Hr]] Hl.
  split; [|reflexivity].
  unfold _run_graphql, bind at 1, require_gh.
  rewrite Hw. cbn [ret].
  unfold bind at 1, _run_command, bind at 1, spawn. rewrite Hr.
  cbn. unfold bind at 1, lift at 1. rewrite Hl. reflexivity.
Qed.

End RunGraphql.

(* ===================================================================== *)
(** ** The command runner ([_run_command]) *)
(* ===================================================================== *)

Section RunCommand.

Context {W : Type} {rich : Rich}.
Variable subprocess_run : list string -> Z -> W -> run_outcome * W.

(** Amended C8.  A process that outlives the 30 second timeout makes
    [_run_command] fail with [subprocess.TimeoutExpired] itself: the
    exception is let through unchanged, nothing is printed, and it is not
    the [GhError] that a non-zero exit status raises, whose message is the
    stripped standard error or, when that is empty, the exit code. *)
Theorem run_command_timeout :
  forall (args : list string) (st : State W) (w1 : W),
    subprocess_run args 30 (world st) = (RunRaises TimeoutExpired, w1) ->
    _run_command subprocess_run args st
    = (Raise TimeoutExpired, mkState w1 (console st)) /\
    module_error TimeoutExpired = false /\
    (forall (st0 : State W) (w2 : W) (returncode : Z) (stdout stderr : string),
        returncode <> 0%Z ->
        subprocess_run args 30 (world st0)
        = (Completed returncode stdout stderr, w2) ->
        _run_command subprocess_run args st0
        = (Raise (GhError
                    (if String.eqb (PyStr.strip stderr) ""
                     then "Command failed with exit code "
                          ++ PyStr.of_int returncode
                     else PyStr.strip stderr)),
           mkState w2 (console st0))).
Proof.
  intros args st w1 Ht. split; [|split; [reflexivity|]].
  - unfold _run_command, bind, spawn. now rewrite Ht.
  - intros st0 w2 returncode stdout stderr Hrc Hr.
    unfold _run_command, bind, spawn. rewrite Hr.
    apply Z.eqb_neq in Hrc. rewrite Hrc. cbn [negb].
    now destruct (String.eqb (PyStr.strip stderr) "").
Qed.

End RunCommand.

(* ===================================================================== *)
(** ** Review threads and the [pr reply] command *)
(* ===================================================================== *)

Section Threads.

Context {W : Type} {rich : Rich}.
Variable which : string -> W -> option string.
Variable subprocess_run : list string -> Z -> W -> run_outcome * W.
Variable json_loads : string -> option json.
Variable json_dumps : json -> string.
Variable repr_compound : json -> string.

#[local] Abbreviation run_graphql :=
  (_run_graphql which subprocess_run json_loads repr_compound).
#[local] Abbreviation gh_prints :=
  (gh_answers which subprocess_run repr_compound).
#[local] Abbreviation fetch :=
  (fetch_review_threads which subprocess_run json_loads repr_compound).

(** On threads whose [isResolved] is a boolean, the filtering
    comprehension raises nothing and is [filter]. *)
Lemma comprehension_if_unresolved (threads : list json) :
  Forall (fun t => exists b, Py.subscript t "isResolved" = Ok (JBool b))
         threads ->
  comprehension_if unresolved threads = Ok (filter unresolved_thread threads).
Proof.
  induction 1 as [|t threads [b Hb] _ IH]; simpl; [reflexivity|].
  unfold unresolved at 1. rewrite Hb, IH. cbn [Py.truthy].
  assert (E : unresolved_thread t = negb b).
  { unfold Py.subscript in Hb. unfold unresolved_thread.
    destruct t; try discriminate.
    destruct (Py.lookup "isResolved" fields) as [v|]; [|discriminate].
    injection Hb as ->. now destruct b. }
  now rewrite E.
Qed.

(** C1.  For the list of threads fetched for a pull request,
    [fetch_review_threads] with [all_threads=True] returns the list as it
    is, and with [all_threads=False] returns, in the original order,
    exactly the threads whose [isResolved] is [False]. *)
Theorem fetch_review_threads_filter :
  forall (owner repo : string) (pr : Z) (st : State W) text w1 data threads,
    gh_prints fetch_review_threads_query
      [("owner", JStr owner); ("repo", JStr repo); ("pr", JInt pr)]
      st text w1 ->
    json_loads text = Some data ->
    Py.contains "errors" data = Ok false ->
    thread_nodes data = Ok (JList threads) ->
    fetch owner repo pr true st
    = (Ok (JList threads), mkState w1 (console st))
    /\
    (Forall (fun t => exists b, Py.subscript t "isResolved" = Ok (JBool b))
            threads ->
     fetch owner repo pr false st
     = (Ok (JList (filter unresolved_thread threads)),
        mkState w1 (console st))).
Proof.
  intros owner repo pr st text w1 data threads Hg Hl Hc Hn.
  assert (E : run_graphql fetch_review_threads_query
                [("owner", JStr owner); ("repo", JStr repo); ("pr", JInt pr)]
                st = (Ok data, mkState w1 (console st))).
  { rewrite (run_graphql_parsed _ _ _ _ _ _ _ _ _ _ Hg Hl).
    apply (check_errors_absent _ _ _ Hc). }
  split; [|intros Ht]; unfold fetch_review_threads, bind, lift;
    rewrite E, Hn; cbn [negb Py.iterate]; [reflexivity|].
  now rewrite (comprehension_if_unresolved _ Ht).
Qed.

(** A call of [_run_graphql] that returns has printed nothing. *)
Lemma run_graphql_ok_silent query variables (st st1 : State W) data :
  run_graphql query variables st = (Ok data, st1) ->
  console st1 = console st.
Proof.
  unfold _run_graphql, bind, require_gh, _run_command, bind, spawn, lift,
    rprint, echo, raise, ret.
  destruct (which "gh" (world st));
    [|destruct (print_error _); discriminate].
  destruct (subprocess_run _ 30%Z (world st)) as [o w1]. cbn.
  destruct o as [rc out err|e].
  - destruct (negb (rc =? 0)%Z); [discriminate|].
    destruct (json_loads out) as [d|]; [|discriminate].
    destruct (Py.contains "errors" d) as [[|]|]; try discriminate.
    + destruct (Py.subscript d "errors"); [|discriminate].
      destruct (Py.iterate a); [|discriminate].
      destruct (comprehension _ a0); [|discriminate].
      destruct (join_values "; " a1); [|discriminate].
      destruct (print_error _); discriminate.
    + intros H. now injection H as _ <-.
  - destruct e; try discriminate.
    destruct (graphql_cmd _ _ _); [discriminate|].
    destruct (print_error _); discriminate.
Qed.

(** Amended C6.  When the reply mutation succeeds and the resolve call
    that follows fails, [pr reply --resolve] ends with the failure of the
    resolve call, in the state that call left: the reply call printed
    nothing, so the result of the reply is not part of the outcome, in
    the JSON mode and in the pretty mode alike. *)
Theorem reply_then_resolve_fails :
  forall (thread_id body : string) (pretty : bool)
         (st st1 st2 : State W) (reply_result : json) (e : exn),
    reply_to_thread which subprocess_run json_loads repr_compound
      thread_id body st = (Ok reply_result, st1) ->
    resolve_thread which subprocess_run json_loads repr_compound
      thread_id st1 = (Raise e, st2) ->
    reply which subprocess_run json_loads json_dumps repr_compound
      thread_id body true pretty st = (Raise e, st2)
    /\ console st1 = console st.
Proof.
  intros thread_id body pretty st st1 st2 reply_result e Hreply Hresolve.
  split.
  - unfold reply, bind at 1. rewrite Hreply.
    unfold bind at 1. now rewrite Hresolve.
  - exact (run_graphql_ok_silent _ _ _ _ _ Hreply).
Qed.

End Threads.

(* ===================================================================== *)
(** ** Concrete runs *)
(* ===================================================================== *)

Module Runs.

Import Scenario.

#[local] Existing Instance Scenario.rich.

#[local] Abbreviation graphql :=
  (_run_graphql which subprocess_run json_loads repr_compound).
#[local] Abbreviation graphql_more :=
  (_run_graphql which subprocess_run json_loads_more repr_compound).

Lemma gh_answers_with_gh query variables text stderr rest :
  gh_answers which subprocess_run repr_compound query variables
    (with_gh (Completed 0 text stderr :: rest)) text
    (mkWorld (Some "/usr/bin/gh") rest).
Proof. split; [now exists "/usr/bin/gh" | now exists stderr]. Qed.

(** The test case of C1: of the threads [t1] (open) and [t2] (resolved),
    the default fetch keeps [t1] and the full fetch keeps both. *)
Lemma fetch_review_threads_filter_witness :
  fetch_review_threads which subprocess_run json_loads repr_compound
    "owner" "repo" 1 true (with_gh [Completed 0 threads_text ""])
  = (Ok (JList [thread "t1" false; thread "t2" true]), with_gh [])
  /\
  fetch_review_threads which subprocess_run json_loads repr_compound
    "owner" "repo" 1 false (with_gh [Completed 0 threads_text ""])
  = (Ok (JList [thread "t1" false]), with_gh []).
Proof.
  destruct (fetch_review_threads_filter which subprocess_run json_loads
              repr_compound "owner" "repo" 1
              (with_gh [Completed 0 threads_text ""]) threads_text
              (mkWorld (Some "/usr/bin/gh") []) threads_value
              [thread "t1" false; thread "t2" true]
              (gh_answers_with_gh _ _ _ _ _) eq_refl eq_refl eq_refl)
    as [Hall Hopen].
  split; [exact Hall|]. apply Hopen.
  repeat constructor; eexists; reflexivity.
Defined.

(** C2 at work.  A response that carries two errors next to partial
    data ends in the error exit with both messages printed.  A response
    whose one error message quotes the closing tag [[/x]] does not: rich
    raises [MarkupError] on the line, the error exit is not reached and
    the message is not printed. *)
Lemma run_graphql_errors_fail_witness :
  graphql_more "query { viewer { login } }" []
    (with_gh [Completed 0 tag_error_text ""])
  = (Raise MarkupError, mkState (mkWorld (Some "/usr/bin/gh") []) [])
  /\
  graphql "query { viewer { login } }" []
    (with_gh [Completed 0 errors_text ""])
  = (Raise (Exit 1),
     mkState (mkWorld (Some "/usr/bin/gh") [])
       ["[red]GraphQL error:[/red] Something went wrong; Bad field"]).
Proof.
  split.
  - refine (run_graphql_errors_fail which subprocess_run json_loads_more
             repr_compound "query { viewer { login } }" []
             (with_gh [Completed 0 tag_error_text ""]) tag_error_text
             (mkWorld (Some "/usr/bin/gh") [])
             [("errors",
               JList [JObj [("message", JStr "Unexpected [/x] in the body")]])]
             [JObj [("message", JStr "Unexpected [/x] in the body")]]
             ["Unexpected [/x] in the body"]
             (gh_answers_with_gh _ _ _ _ _) eq_refl eq_refl _ _).
    + discriminate.
    + repeat constructor; eexists; split; reflexivity.
  - refine (run_graphql_errors_fail which subprocess_run json_loads
             repr_compound "query { viewer { login } }" []
             (with_gh [Completed 0 errors_text ""]) errors_text
             (mkWorld (Some "/usr/bin/gh") [])
             [("data", JObj [("viewer", JNull)]);
              ("errors", JList [JObj [("message", JStr "Something went wrong")];
                                JObj [("message", JStr "Bad field")]])]
             [JObj [("message", JStr "Something went wrong")];
              JObj [("message", JStr "Bad field")]]
             ["Something went wrong"; "Bad field"]
             (gh_answers_with_gh _ _ _ _ _) eq_refl eq_refl _ _).
    + discriminate.
    + repeat constructor; eexists; split; reflexivity.
Defined.



(** C7 as stated fails: [gh] exits with status 0 but prints an HTML page;
    [_run_graphql] then ends in no failure of the module's own. *)
Lemma run_graphql_not_json_counterexample :
  ~ exists e st',
      graphql "query { viewer { login } }" []
        (with_gh [Completed 0 "<html>Bad gateway</html>" ""])
      = (Raise e, st')
      /\ module_error e = true.
Proof.
  intros (e & st' & H & He).
  cbv in H. injection H as <- _. discriminate.
Qed.

Lemma run_graphql_not_json_witness :
  graphql "query { viewer { login } }" []
    (with_gh [Completed 0 "<html>Bad gateway</html>" ""])
  = (Raise JSONDecodeError, with_gh [])
  /\ module_error JSONDecodeError = false.
Proof.
  apply (run_graphql_not_json which subprocess_run json_loads repr_compound
           "query { viewer { login } }" []
           (with_gh [Completed 0 "<html>Bad gateway</html>" ""])
           "<html>Bad gateway</html>" (mkWorld (Some "/usr/bin/gh") [])
           (gh_answers_with_gh _ _ _ _ _) eq_refl).
Defined.

(** C8 as stated fails: the process times out and [_run_command] does
    not raise [GhError]. *)
Lemma run_command_timeout_counterexample :
  ~ exists msg st',
      _run_command subprocess_run ["gh"; "pr"; "checks"]
        (with_gh [RunRaises TimeoutExpired])
      = (Raise (GhError msg), st').
Proof.
  intros (msg & st' & H). cbv in H. discriminate.
Qed.

Lemma run_command_timeout_witness :
  _run_command subprocess_run ["gh"; "pr"; "checks"]
    (with_gh [RunRaises TimeoutExpired])
  = (Raise TimeoutExpired, with_gh []).
Proof.
  apply (run_command_timeout subprocess_run ["gh"; "pr"; "checks"]
           (with_gh [RunRaises TimeoutExpired])
           (mkWorld (Some "/usr/bin/gh") []) eq_refl).
Defined.

(** C6 as stated fails: the reply mutation succeeds, the resolve call
    times out, and [pr reply --resolve] ends with that exception having
    printed nothing at all, the reply result included. *)
Lemma reply_then_resolve_fails_counterexample :
  let outcome :=
    reply which subprocess_run json_loads json_dumps repr_compound
      "T_abc" "Fixed!" true false
      (with_gh [Completed 0 reply_text ""; RunRaises TimeoutExpired]) in
  fst outcome = Raise TimeoutExpired /\
  ~ exists line, In line (console (snd outcome)).
Proof.
  split; [reflexivity|]. intros [line H]. exact H.
Qed.

(** The same command when the resolve call fails with a non-zero exit
    status, in the pretty mode: the [Replied to thread] line is not
    printed either. *)
Lemma reply_then_resolve_fails_witness :
  reply which subprocess_run json_loads json_dumps repr_compound
    "T_abc" "Fixed!" true true
    (with_gh [Completed 0 reply_text "";
              Completed 1 "" "GraphQL: Could not resolve to a node"])
  = (Raise (GhError "GraphQL: Could not resolve to a node"), with_gh [])
  /\
  console (with_gh [Completed 1 "" "GraphQL: Could not resolve to a node"])
  = console (with_gh [Completed 0 reply_text "";
                      Completed 1 "" "GraphQL: Could not resolve to a node"]).
Proof.
  apply (reply_then_resolve_fails which subprocess_run json_loads json_dumps
           repr_compound "T_abc" "Fixed!" true
           (with_gh [Completed 0 reply_text "";
                     Completed 1 "" "GraphQL: Could not resolve to a node"])
           (with_gh [Completed 1 "" "GraphQL: Could not resolve to a node"])
           (with_gh []) reply_value
           (GhError "GraphQL: Could not resolve to a node")
           eq_refl eq_refl).
Defined.

End Runs.

(* ===================================================================== *)
(** ** Further properties: the command runner and the [gh] guard *)
(* ===================================================================== *)

Section CommandRunner.

Context {W : Type} {rich : Rich}.
Variable which : string -> W -> option string.
Variable subprocess_run : list string -> Z -> W -> run_outcome * W.
Variable json_loads : string -> option json.
Variable json_dumps : json -> string.
Variable repr_compound : json -> string.
Variable render_threads_table : json -> M W unit.
Variable render_checks_table : json -> M W unit.

Lemma lstrip_blank (s : string) :
  all_in PyStr.isspace s = true -> PyStr.lstrip s = "".
Proof.
  induction s as [|c s IH]; cbn [all_in PyStr.lstrip]; [reflexivity|].
  intros H. apply andb_true_iff in H. destruct H as [Hc Hs].
  rewrite Hc. auto.
Qed.

Lemma strip_blank (s : string) :
  all_in PyStr.isspace s = true -> PyStr.strip s = "".
Proof. intros H. unfold PyStr.strip. now rewrite (lstrip_blank s H). Qed.

(** X1.  [_run_command] returns exactly when the process ran to the end
    with exit status 0; what it returns is the standard output as it was
    captured (not stripped, whatever the standard error holds), and it
    has printed nothing. *)
Theorem run_command_ok_iff :
  forall (args : list string) (st st' : State W) (out : string),
    _run_command subprocess_run args st = (Ok out, st') <->
    (exists stderr,
        subprocess_run args 30 (world st)
        = (Completed 0 out stderr, world st')) /\
    console st' = console st.
Proof.
  intros args st st' out. unfold _run_command, bind, spawn. split.
  - destruct (subprocess_run args 30%Z (world st)) as [o w1].
    destruct o as [rc stdout stderr|e].
    + destruct (rc =? 0)%Z eqn:Hrc; cbn [negb]; [|discriminate].
      apply Z.eqb_eq in Hrc. subst rc. intros H.
      injection H as <- <-. split; [now exists stderr | reflexivity].
    + destruct e; try discriminate. destruct args; [discriminate|].
      unfold rprint. destruct (print_error _); discriminate.
  - intros [[stderr Hr] Hc]. rewrite Hr. cbn.
    destruct st' as [w' c']. cbn in Hc. now subst c'.
Qed.

(** X2.  When the process ends with a non-zero exit status,
    [_run_command] raises [GhError] with a message that is never empty:
    the standard error without its surrounding whitespace, or, when the
    standard error is empty or all whitespace, the generic text naming
    the exit status. *)
Theorem run_command_failure_message :
  forall (args : list string) (st : State W) (w1 : W)
         (returncode : Z) (stdout stderr : string),
    subprocess_run args 30 (world st)
    = (Completed returncode stdout stderr, w1) ->
    returncode <> 0%Z ->
    exists msg,
      _run_command subprocess_run args st
      = (Raise (GhError msg), mkState w1 (console st)) /\
      msg <> "" /\
      (all_in PyStr.isspace stderr = true ->
       msg = "Command failed with exit code " ++ PyStr.of_int returncode) /\
      (PyStr.strip stderr <> "" -> msg = PyStr.strip stderr).
Proof.
  intros args st w1 rc stdout stderr Hr Hrc.
  unfold _run_command, bind, spawn. rewrite Hr.
  apply Z.eqb_neq in Hrc. rewrite Hrc. cbn [negb].
  destruct (String.eqb_spec (PyStr.strip stderr) "") as [E|E]; cbn [negb].
  - eexists. split; [reflexivity|]. split; [discriminate|].
    split; [reflexivity | congruence].
  - eexists. split; [reflexivity|]. split; [assumption|].
    split; [|reflexivity]. intros Hb. now rewrite (strip_blank _ Hb) in E.
Qed.

(** X3.  The one line [_run_command] ever hands to [rprint] is the
    [Command not found] line for its first argument, when the executable
    does not exist: when rich prints the line, [typer.Exit(1)] follows;
    when rich raises on it, that exception leaves with nothing printed.
    In every other case the console is as it was. *)
Theorem run_command_console :
  forall (args : list string) (st : State W) (o : run_outcome) (w1 : W),
    subprocess_run args 30 (world st) = (o, w1) ->
    (forall a0 rest,
        o = RunRaises FileNotFoundError ->
        args = a0 :: rest ->
        let line := ("[red]Error:[/red] Command not found: " ++ a0)%string in
        _run_command subprocess_run args st
        = match print_error line with
          | Some e => (Raise e, mkState w1 (console st))
          | None => (Raise (Exit 1), mkState w1 (console st ++ [line])%list)
          end) /\
    (o <> RunRaises FileNotFoundError \/ args = [] ->
     snd (_run_command subprocess_run args st) = mkState w1 (console st)).
Proof.
  intros args st o w1 Hr. split.
  - intros a0 rest -> -> line.
    unfold _run_command, bind at 1, spawn. rewrite Hr.
    apply (rprint_then_raise _ _ (mkState w1 (console st))).
  - intros Hcase. unfold _run_command, bind at 1, spawn. rewrite Hr.
    destruct o as [rc stdout stderr|e].
    + now destruct (negb (rc =? 0)%Z).
    + destruct e; try reflexivity.
      destruct Hcase as [Ho | ->]; [congruence | reflexivity].
Qed.

#[local] Abbreviation hint :=
  "[red]Error:[/red] 'gh' CLI not found. Install it from https://cli.github.com/".

Lemma require_gh_missing (st : State W) :
  which "gh" (world st) = None ->
  require_gh which st
  = (Raise (Exit 1), mkState (world st) (console st ++ [hint])%list).
Proof.
  intros H. unfold require_gh. rewrite H.
  now rewrite rprint_then_raise, gh_hint_prints.
Qed.

Lemma run_graphql_gh_missing query variables (st : State W) :
  which "gh" (world st) = None ->
  _run_graphql which subprocess_run json_loads repr_compound
    query variables st
  = (Raise (Exit 1), mkState (world st) (console st ++ [hint])%list).
Proof.
  intros H. unfold _run_graphql, bind at 1.
  now rewrite (require_gh_missing _ H).
Qed.

Lemma run_gh_missing args (st : State W) :
  which "gh" (world st) = None ->
  _run_gh which subprocess_run args st
  = (Raise (Exit 1), mkState (world st) (console st ++ [hint])%list).
Proof.
  intros H. unfold _run_gh, bind at 1.
  now rewrite (require_gh_missing _ H).
Qed.

(** X4.  When [gh] is not on the PATH, every operation that goes through
    [gh] prints the install hint once, leaves with [typer.Exit(1)] and
    spawns no process (the world is untouched): the [gh.py] functions
    and the [pr] commands [info], [resolve], [reply], [checks], and
    [threads] once owner, repository and number are given. *)
Theorem gh_missing_stops_everything :
  forall (st : State W),
    which "gh" (world st) = None ->
    let stopped {A} (c : M W A) :=
      c st
      = (Raise (Exit 1), mkState (world st) (console st ++ [hint])%list) in
    (forall args, stopped (_run_gh which subprocess_run args)) /\
    (forall query variables,
        stopped (_run_graphql which subprocess_run json_loads repr_compound
                   query variables)) /\
    stopped (get_pr_info which subprocess_run json_loads) /\
    stopped (get_pr_checks which subprocess_run json_loads) /\
    (forall owner repo pr all_threads,
        stopped (fetch_review_threads which subprocess_run json_loads
                   repr_compound owner repo pr all_threads)) /\
    (forall thread_id,
        stopped (resolve_thread which subprocess_run json_loads
                   repr_compound thread_id)) /\
    (forall thread_id body,
        stopped (reply_to_thread which subprocess_run json_loads
                   repr_compound thread_id body)) /\
    (forall pretty,
        stopped (info which subprocess_run json_loads json_dumps
                   repr_compound pretty)) /\
    (forall thread_id pretty,
        stopped (resolve which subprocess_run json_loads json_dumps
                   repr_compound thread_id pretty)) /\
    (forall thread_id body and_resolve pretty,
        stopped (reply which subprocess_run json_loads json_dumps
                   repr_compound thread_id body and_resolve pretty)) /\
    (forall pretty,
        stopped (checks which subprocess_run json_loads json_dumps
                   render_checks_table pretty)) /\
    (forall owner repo pr all_threads pretty,
        stopped (threads which subprocess_run json_loads json_dumps
                   repr_compound render_threads_table
                   (Some owner) (Some repo) (Some pr) all_threads pretty)).
Proof.
  intros st H stopped. subst stopped. cbv beta.
  repeat split; intros;
    unfold info, resolve, reply, checks, threads;
    unfold fetch_review_threads_dyn, fetch_review_threads, resolve_thread,
      reply_to_thread, get_pr_info, get_pr_checks;
    try apply (run_gh_missing _ _ H);
    try apply (run_graphql_gh_missing _ _ _ H);
    unfold bind, ret;
    rewrite ?(run_gh_missing _ _ H), ?(run_graphql_gh_missing _ _ _ H);
    reflexivity.
Qed.

End CommandRunner.

(* ===================================================================== *)
(** ** Further properties: the GraphQL client and the [gh] JSON commands *)
(* ===================================================================== *)

Section GraphqlClient.

Context {W : Type} {rich : Rich}.
Variable which : string -> W -> option string.
Variable subprocess_run : list string -> Z -> W -> run_outcome * W.
Variable json_loads : string -> option json.
Variable repr_compound : json -> string.

#[local] Abbreviation run_graphql :=
  (_run_graphql which subprocess_run json_loads repr_compound).
#[local] Abbreviation gh_prints :=
  (gh_answers which subprocess_run repr_compound).

(** X5.  [_run_graphql] returns a value exactly when [gh] is installed,
    the one [gh api graphql] process it spawns exits with status 0, its
    output is JSON and the parsed value has no [errors] key; the value is
    the parsed output, unchanged, and nothing has been printed. *)
Theorem run_graphql_ok_iff :
  forall query variables (st st' : State W) (data : json),
    run_graphql query variables st = (Ok data, st') <->
    (exists text,
        gh_prints query variables st text (world st') /\
        json_loads text = Some data) /\
    Py.contains "errors" data = Ok false /\
    console st' = console st.
Proof.
  intros query variables st st' data. split.
  - unfold _run_graphql, bind, require_gh, _run_command, bind, spawn, lift,
      rprint, echo, raise, ret, gh_answers.
    destruct (which "gh" (world st)) as [path|] eqn:Hw;
      [|destruct (print_error _); discriminate].
    destruct (subprocess_run _ 30%Z (world st)) as [o w1] eqn:Hr. cbn.
    destruct o as [rc out err|e].
    + destruct (rc =? 0)%Z eqn:Hrc; cbn [negb]; [|discriminate].
      apply Z.eqb_eq in Hrc. subst rc.
      destruct (json_loads out) as [d|] eqn:Hl; [|discriminate].
      destruct (Py.contains "errors" d) as [[|]|] eqn:Hc; try discriminate.
      * destruct (Py.subscript d "errors"); [|discriminate].
        destruct (Py.iterate a); [|discriminate].
        destruct (comprehension _ a0); [|discriminate].
        destruct (join_values "; " a1); [|discriminate].
        destruct (print_error _); discriminate.
      * intros H. injection H as <- <-. cbn.
        split; [|split; [assumption | reflexivity]].
        exists out. split; [|assumption].
        split; [now exists path | now exists err].
    + destruct e; try discriminate.
      destruct (graphql_cmd _ _ _); [discriminate|].
      destruct (print_error _); discriminate.
  - intros [[text [Hg Hl]] [Hc Hcon]].
    rewrite (run_graphql_parsed _ _ _ _ _ _ _ _ _ _ Hg Hl).
    rewrite (check_errors_absent _ _ _ Hc).
    destruct st' as [w' c']. cbn in Hcon. now subst c'.
Qed.

(** X6.  A response that parses to something other than an object never
    ends in the GraphQL error exit and prints nothing: it is returned as
    it is, or [TypeError] is raised; for [null], a boolean or a number it
    is always [TypeError]. *)
Theorem run_graphql_non_object :
  forall query variables (st : State W) text w1 data,
    gh_prints query variables st text w1 ->
    json_loads text = Some data ->
    is_object data = false ->
    (run_graphql query variables st
     = (Ok data, mkState w1 (console st)) \/
     run_graphql query variables st
     = (Raise TypeError, mkState w1 (console st))) /\
    (scalar data = true ->
     run_graphql query variables st
     = (Raise TypeError, mkState w1 (console st))).
Proof.
  intros query variables st text w1 data Hg Hl Hobj.
  rewrite (run_graphql_parsed _ _ _ _ _ _ _ _ _ _ Hg Hl).
  unfold check_errors, bind, lift.
  destruct data; try discriminate; cbn [Py.contains];
    try (split; [now right | reflexivity]).
  - destruct (PyStr.contains "errors" s);
      (split; [(now left) || (now right) | discriminate]).
  - destruct (existsb _ items);
      (split; [(now left) || (now right) | discriminate]).
Qed.

Lemma comprehension_not_object (errs : list json) :
  Exists (fun e => is_object e = false) errs ->
  comprehension (error_message repr_compound) errs = Raise AttributeError.
Proof.
  induction errs as [|e errs IH]; intros H; [inversion H|].
  cbn [comprehension]. destruct e; try reflexivity.
  inversion H as [? ? Hh|? ? Ht]; subst; [discriminate|].
  cbn [error_message]. now rewrite (IH Ht).
Qed.

Lemma comprehension_renderings (errs : list json) (msgs : list string) :
  Forall2 (error_rendering repr_compound) errs msgs ->
  comprehension (error_message repr_compound) errs = Ok (map JStr msgs).
Proof.
  induction 1 as [|e m errs msgs (fields & -> & Hm) _ IH]; [reflexivity|].
  cbn [comprehension error_message]. rewrite IH.
  destruct Hm as [Hm|[Hm ->]]; rewrite Hm; reflexivity.
Qed.

(** X7.  When some entry of the [errors] list is not an object,
    [_run_graphql] raises [AttributeError] and prints nothing, not even
    the [GraphQL error:] heading, whatever the other entries are. *)
Theorem run_graphql_bad_error_entry :
  forall query variables (st : State W) text w1 fields errs,
    gh_prints query variables st text w1 ->
    json_loads text = Some (JObj fields) ->
    Py.lookup "errors" fields = Some (JList errs) ->
    Exists (fun e => is_object e = false) errs ->
    run_graphql query variables st
    = (Raise AttributeError, mkState w1 (console st)).
Proof.
  intros query variables st text w1 fields errs Hg Hl He Hbad.
  rewrite (run_graphql_parsed _ _ _ _ _ _ _ _ _ _ Hg Hl).
  unfold check_errors, bind, lift, Py.contains, Py.subscript.
  rewrite He. cbn [Py.iterate].
  now rewrite (comprehension_not_object _ Hbad).
Qed.

(** X8.  An error entry without a [message] is reported by [str] of the
    whole entry: when every entry of [errors] is an object whose
    [message] is a string or is missing, the line handed to [rprint]
    joins, in order, the messages and, for the entries without one, the
    rendering of the entry itself.  [typer.Exit(1)] follows when rich
    prints the line; when rich raises on it, that exception leaves with
    nothing printed. *)
Theorem run_graphql_message_fallback :
  forall query variables (st : State W) text w1 fields errs msgs,
    gh_prints query variables st text w1 ->
    json_loads text = Some (JObj fields) ->
    Py.lookup "errors" fields = Some (JList errs) ->
    Forall2 (error_rendering repr_compound) errs msgs ->
    let line :=
      ("[red]GraphQL error:[/red] " ++ PyStr.join "; " msgs)%string in
    run_graphql query variables st
    = match print_error line with
      | Some e => (Raise e, mkState w1 (console st))
      | None => (Raise (Exit 1), mkState w1 (console st ++ [line])%list)
      end.
Proof.
  intros query variables st text w1 fields errs msgs Hg Hl He Hm line.
  rewrite (run_graphql_parsed _ _ _ _ _ _ _ _ _ _ Hg Hl).
  unfold check_errors, bind at 1, lift at 1, Py.contains. rewrite He.
  unfold bind at 1, lift at 1, Py.subscript. rewrite He.
  unfold bind at 1, lift at 1. cbn [Py.iterate].
  unfold bind at 1, lift at 1. rewrite (comprehension_renderings _ _ Hm).
  unfold bind at 1, lift at 1. rewrite join_values_strs.
  apply (rprint_then_raise _ _ (mkState w1 (console st))).
Qed.

(** What [get_pr_info] and [get_pr_checks] share: run [gh] with the
    given arguments and parse what it printed. *)
Lemma run_gh_json_ok_iff (args : list string) (st st' : State W) (v : json) :
  bind (_run_gh which subprocess_run args)
       (fun result => lift (match json_loads result with
                            | Some v => Ok v
                            | None => Raise JSONDecodeError
                            end)) st = (Ok v, st') <->
  (exists path, which "gh" (world st) = Some path) /\
  (exists text stderr,
      subprocess_run ("gh" :: args) 30 (world st)
      = (Completed 0 text stderr, world st') /\
      json_loads text = Some v) /\
  console st' = console st.
Proof.
  unfold _run_gh, bind, require_gh, _run_command, bind, spawn, lift,
    rprint, echo, raise, ret. split.
  - destruct (which "gh" (world st)) as [path|];
      [|destruct (print_error _); discriminate].
    destruct (subprocess_run _ 30%Z (world st)) as [o w1]. cbn.
    destruct o as [rc out err|e].
    + destruct (rc =? 0)%Z eqn:Hrc; cbn [negb]; [|discriminate].
      apply Z.eqb_eq in Hrc. subst rc.
      destruct (json_loads out) as [d|] eqn:Hl; [|discriminate].
      intros H. injection H as <- <-. cbn.
      split; [now exists path|]. split; [|reflexivity].
      exists out, err. auto.
    + destruct e; try discriminate. destruct (print_error _); discriminate.
  - intros [[path Hw] [(text & stderr & Hr & Hl) Hc]].
    rewrite Hw, Hr. cbn. rewrite Hl.
    destruct st' as [w' c']. cbn in Hc. now subst c'.
Qed.

(** X9.  [get_pr_info] and [get_pr_checks] return a value exactly when
    [gh] is installed, the one process they spawn ([gh pr view --json
    number,url,headRefName], [gh pr checks --json
    name,state,conclusion,link]) exits with status 0 and its output is
    JSON; the value is the parsed output whatever its shape (no [errors]
    check is made here), and nothing has been printed. *)
Theorem get_pr_json_ok_iff :
  forall (st st' : State W) (v : json),
    (get_pr_info which subprocess_run json_loads st = (Ok v, st') <->
     (exists path, which "gh" (world st) = Some path) /\
     (exists text stderr,
         subprocess_run
           ["gh"; "pr"; "view"; "--json"; "number,url,headRefName"]
           30 (world st)
         = (Completed 0 text stderr, world st') /\
         json_loads text = Some v) /\
     console st' = console st)
    /\
    (get_pr_checks which subprocess_run json_loads st = (Ok v, st') <->
     (exists path, which "gh" (world st) = Some path) /\
     (exists text stderr,
         subprocess_run
           ["gh"; "pr"; "checks"; "--json"; "name,state,conclusion,link"]
           30 (world st)
         = (Completed 0 text stderr, world st') /\
         json_loads text = Some v) /\
     console st' = console st).
Proof.
  intros st st' v. split; apply run_gh_json_ok_iff.
Qed.

End GraphqlClient.

(* ===================================================================== *)
(** ** Further properties: review threads *)
(* ===================================================================== *)

Section FetchThreads.

Context {W : Type} {rich : Rich}.
Variable which : string -> W -> option string.
Variable subprocess_run : list string -> Z -> W -> run_outcome * W.
Variable json_loads : string -> option json.
Variable repr_compound : json -> string.

#[local] Abbreviation gh_prints :=
  (gh_answers which subprocess_run repr_compound).
#[local] Abbreviation fetch :=
  (fetch_review_threads which subprocess_run json_loads repr_compound).

(** The state of a fetch whose response arrived and carries no errors. *)
Lemma fetch_after_response owner repo pr all_threads (st : State W)
    text w1 data :
  gh_prints fetch_review_threads_query
    [("owner", JStr owner); ("repo", JStr repo); ("pr", JInt pr)]
    st text w1 ->
  json_loads text = Some data ->
  Py.contains "errors" data = Ok false ->
  fetch owner repo pr all_threads st
  = bind (lift (thread_nodes data))
      (fun threads =>
         if negb all_threads then
           bind (lift (Py.iterate threads))
             (fun items =>
                bind (lift (comprehension_if unresolved items))
                  (fun kept => ret (JList kept)))
         else ret threads)
      (mkState w1 (console st)).
Proof.
  intros Hg Hl Hc. unfold fetch_review_threads, bind at 1.
  rewrite (run_graphql_parsed _ _ _ _ _ _ _ _ _ _ Hg Hl).
  now rewrite (check_errors_absent _ _ _ Hc).
Qed.

Lemma unresolved_flag (t : json) :
  has_flag t = true -> unresolved t = Ok (flag_falsy t).
Proof.
  unfold has_flag, unresolved, flag_falsy, Py.subscript.
  destruct t; try discriminate.
  now destruct (Py.lookup "isResolved" fields).
Qed.

Lemma comprehension_if_flags (threads : list json) :
  Forall (fun t => has_flag t = true) threads ->
  comprehension_if unresolved threads = Ok (filter flag_falsy threads).
Proof.
  induction 1 as [|t threads Ht _ IH]; [reflexivity|].
  cbn [comprehension_if filter]. now rewrite (unresolved_flag _ Ht), IH.
Qed.

Lemma comprehension_if_raises (pre post : list json) (t : json) (e : exn) :
  Forall (fun t => has_flag t = true) pre ->
  unresolved t = Raise e ->
  comprehension_if unresolved (pre ++ t :: post) = Raise e.
Proof.
  intros Hpre Ht. induction Hpre as [|p pre Hp _ IH]; cbn.
  - now rewrite Ht.
  - now rewrite (unresolved_flag _ Hp), IH.
Qed.

(** [fetch_review_threads] is [fetch_review_threads_dyn] at an [int]. *)
Lemma fetch_review_threads_dyn_int owner repo pr all_threads :
  fetch_review_threads_dyn which subprocess_run json_loads repr_compound
    owner repo (JInt pr) all_threads
  = fetch owner repo pr all_threads.
Proof. reflexivity. Qed.

(** X10.  The default fetch keeps a thread by the truth value of its
    [isResolved] entry, not by comparing it with [False]: when every
    fetched thread has the entry, the result is, in order, the threads
    whose entry is falsy, so a thread whose [isResolved] is [null] (or 0,
    or empty) is returned as unresolved. *)
Theorem fetch_review_threads_falsy_flags :
  forall (owner repo : string) (pr : Z) (st : State W) text w1 data threads,
    gh_prints fetch_review_threads_query
      [("owner", JStr owner); ("repo", JStr repo); ("pr", JInt pr)]
      st text w1 ->
    json_loads text = Some data ->
    Py.contains "errors" data = Ok false ->
    thread_nodes data = Ok (JList threads) ->
    Forall (fun t => has_flag t = true) threads ->
    fetch owner repo pr false st
    = (Ok (JList (filter flag_falsy threads)), mkState w1 (console st)).
Proof.
  intros owner repo pr st text w1 data threads Hg Hl Hc Hn Hf.
  rewrite (fetch_after_response _ _ _ _ _ _ _ _ Hg Hl Hc).
  unfold bind, lift. rewrite Hn. cbn [negb Py.iterate].
  now rewrite (comprehension_if_flags _ Hf).
Qed.

(** X11.  One thread without an [isResolved] entry makes the default
    fetch fail as a whole: it raises [KeyError] for the key (or
    [TypeError] when the node is not an object), returns none of the
    threads and prints nothing, while the fetch with [all_threads=True]
    returns the same list untouched. *)
Theorem fetch_review_threads_missing_flag :
  forall (owner repo : string) (pr : Z) (st : State W) text w1 data
         (pre post : list json) (t : json),
    gh_prints fetch_review_threads_query
      [("owner", JStr owner); ("repo", JStr repo); ("pr", JInt pr)]
      st text w1 ->
    json_loads text = Some data ->
    Py.contains "errors" data = Ok false ->
    thread_nodes data = Ok (JList (pre ++ t :: post)) ->
    Forall (fun t => has_flag t = true) pre ->
    has_flag t = false ->
    fetch owner repo pr false st
    = (Raise (if is_object t then KeyError "isResolved" else TypeError),
       mkState w1 (console st))
    /\
    fetch owner repo pr true st
    = (Ok (JList (pre ++ t :: post)), mkState w1 (console st)).
Proof.
  intros owner repo pr st text w1 data pre post t Hg Hl Hc Hn Hpre Ht.
  rewrite !(fetch_after_response _ _ _ _ _ _ _ _ Hg Hl Hc).
  unfold bind, lift. rewrite Hn. cbn [negb Py.iterate].
  split; [|reflexivity].
  rewrite (comprehension_if_raises pre post t
             (if is_object t then KeyError "isResolved" else TypeError) Hpre);
    [reflexivity|].
  unfold has_flag in Ht. unfold unresolved, Py.subscript.
  destruct t; try reflexivity. cbn [is_object].
  now destruct (Py.lookup "isResolved" fields).
Qed.

(** X12.  A response without the expected nesting makes the fetch fail,
    in both modes and with nothing printed: when the pull request does
    not exist and [pullRequest] is [null], with [TypeError]; when the
    response object has no [data] entry, with [KeyError] for [data]. *)
Theorem fetch_review_threads_bad_shape :
  forall (owner repo : string) (pr : Z) (all_threads : bool)
         (st : State W) text w1 fields,
    gh_prints fetch_review_threads_query
      [("owner", JStr owner); ("repo", JStr repo); ("pr", JInt pr)]
      st text w1 ->
    json_loads text = Some (JObj fields) ->
    Py.lookup "errors" fields = None ->
    (forall d1 d2,
        Py.lookup "data" fields = Some (JObj d1) ->
        Py.lookup "repository" d1 = Some (JObj d2) ->
        Py.lookup "pullRequest" d2 = Some JNull ->
        fetch owner repo pr all_threads st
        = (Raise TypeError, mkState w1 (console st)))
    /\
    (Py.lookup "data" fields = None ->
     fetch owner repo pr all_threads st
     = (Raise (KeyError "data"), mkState w1 (console st))).
Proof.
  intros owner repo pr all_threads st text w1 fields Hg Hl He.
  assert (Hc : Py.contains "errors" (JObj fields) = Ok false)
    by (cbn; now rewrite He).
  rewrite (fetch_after_response _ _ _ _ _ _ _ _ Hg Hl Hc).
  unfold bind, lift, thread_nodes. cbn [fold_left Py.subscript]. split.
  - intros d1 d2 H1 H2 H3. rewrite H1. cbn [Py.subscript].
    rewrite H2. cbn [Py.subscript]. now rewrite H3.
  - intros H1. now rewrite H1.
Qed.

End FetchThreads.

(* ===================================================================== *)
(** ** Further properties: the [pr] commands *)
(* ===================================================================== *)

Section PrCommands.

Context {W : Type} {rich : Rich}.
Variable which : string -> W -> option string.
Variable subprocess_run : list string -> Z -> W -> run_outcome * W.
Variable json_loads : string -> option json.
Variable json_dumps : json -> string.
Variable repr_compound : json -> string.
Variable render_threads_table : json -> M W unit.
Variable render_checks_table : json -> M W unit.

#[local] Abbreviation run_graphql :=
  (_run_graphql which subprocess_run json_loads repr_compound).
#[local] Abbreviation reply_to :=
  (reply_to_thread which subprocess_run json_loads repr_compound).
#[local] Abbreviation resolve_th :=
  (resolve_thread which subprocess_run json_loads repr_compound).
#[local] Abbreviation reply_cmd :=
  (reply which subprocess_run json_loads json_dumps repr_compound).
#[local] Abbreviation resolve_cmd :=
  (resolve which subprocess_run json_loads json_dumps repr_compound).
#[local] Abbreviation info_cmd :=
  (info which subprocess_run json_loads json_dumps repr_compound).
#[local] Abbreviation checks_cmd :=
  (checks which subprocess_run json_loads json_dumps render_checks_table).
#[local] Abbreviation threads_cmd :=
  (threads which subprocess_run json_loads json_dumps repr_compound
     render_threads_table).
#[local] Abbreviation pr_info :=
  (get_pr_info which subprocess_run json_loads).
#[local] Abbreviation pr_checks :=
  (get_pr_checks which subprocess_run json_loads).

(** What [_run_graphql] returns is never [None]: the test for the
    [errors] key raises on it. *)
Lemma run_graphql_ok_not_null query variables (st st1 : State W) data :
  run_graphql query variables st = (Ok data, st1) -> data <> JNull.
Proof.
  unfold _run_graphql, bind, require_gh, _run_command, bind, spawn, lift,
    rprint, echo, raise, ret.
  destruct (which "gh" (world st));
    [|destruct (print_error _); discriminate].
  destruct (subprocess_run _ 30%Z (world st)) as [o w1]. cbn.
  destruct o as [rc out err|e].
  - destruct (negb (rc =? 0)%Z); [discriminate|].
    destruct (json_loads out) as [d|]; [|discriminate].
    destruct (Py.contains "errors" d) as [[|]|] eqn:Hc; try discriminate.
    + destruct (Py.subscript d "errors"); [|discriminate].
      destruct (Py.iterate a); [|discriminate].
      destruct (comprehension _ a0); [|discriminate].
      destruct (join_values "; " a1); [|discriminate].
      destruct (print_error _); discriminate.
    + intros H. injection H as <- _. intros ->. discriminate.
  - destruct e; try discriminate.
    destruct (graphql_cmd _ _ _); [discriminate|].
    destruct (print_error _); discriminate.
Qed.

Lemma pr_json_silent args (st st1 : State W) v :
  bind (_run_gh which subprocess_run args)
       (fun result => lift (match json_loads result with
                            | Some v => Ok v
                            | None => Raise JSONDecodeError
                            end)) st = (Ok v, st1) ->
  console st1 = console st.
Proof. intros H. now apply run_gh_json_ok_iff in H. Qed.

(** A fetch that returns has printed nothing. *)
Lemma fetch_ok_silent owner repo pr all_threads (st st1 : State W) v :
  fetch_review_threads which subprocess_run json_loads repr_compound
    owner repo pr all_threads st = (Ok v, st1) ->
  console st1 = console st.
Proof.
  unfold fetch_review_threads, bind at 1.
  destruct (run_graphql _ _ st) as [[data|e] st0] eqn:Hrun; [|discriminate].
  apply run_graphql_ok_silent in Hrun. unfold bind, lift, ret.
  destruct (thread_nodes data); [|discriminate].
  destruct (negb all_threads).
  - destruct (Py.iterate a); [|discriminate].
    destruct (comprehension_if unresolved a0); [|discriminate].
    intros H. injection H as _ <-. assumption.
  - intros H. injection H as _ <-. assumption.
Qed.

(** X13.  On success the JSON mode of [pr reply] prints one object: with
    the key [reply] alone when no resolve was asked for, and with [reply]
    then [resolve] after a successful resolve; the [resolve] key is never
    left out then, since the resolve call cannot return [None]. *)
Theorem reply_json_output :
  forall (thread_id body : string) (st st1 : State W) (reply_result : json),
    reply_to thread_id body st = (Ok reply_result, st1) ->
    reply_cmd thread_id body false false st
    = (Ok tt,
       mkState (world st1)
         (console st ++ [json_dumps (JObj [("reply", reply_result)])])%list)
    /\
    (forall (resolve_result : json) (st2 : State W),
        resolve_th thread_id st1 = (Ok resolve_result, st2) ->
        reply_cmd thread_id body true false st
        = (Ok tt,
           mkState (world st2)
             (console st ++
              [json_dumps (JObj [("reply", reply_result);
                                 ("resolve", resolve_result)])])%list)).
Proof.
  intros thread_id body st st1 r Hreply.
  pose proof (run_graphql_ok_silent _ _ _ _ _ _ _ _ _ Hreply) as Hc1.
  split.
  - unfold reply, bind at 1. rewrite Hreply.
    unfold bind, ret, _json_out, echo. cbn. now rewrite Hc1.
  - intros r2 st2 Hresolve.
    pose proof (run_graphql_ok_silent _ _ _ _ _ _ _ _ _ Hresolve) as Hc2.
    pose proof (run_graphql_ok_not_null _ _ _ _ _ Hresolve) as Hnn.
    unfold reply, bind at 1. rewrite Hreply.
    unfold bind at 1. rewrite Hresolve.
    unfold _json_out, echo. rewrite Hc2, Hc1.
    destruct r2; [congruence| | | | | |]; reflexivity.
Qed.

(** X14.  After a successful reply the pretty mode of [pr reply] hands
    the [Replied to thread] line to [rprint], and after a successful
    resolve the [Resolved thread] line as well; neither line depends on
    what the two mutations returned.  The command returns when rich
    prints its lines.  When rich raises on one (a thread id holding text
    that reads as a closing tag), the command ends with that exception
    although the mutations were made: the world is the one they left. *)
Theorem reply_pretty_output :
  forall (thread_id body : string) (st st1 : State W) (reply_result : json),
    reply_to thread_id body st = (Ok reply_result, st1) ->
    let replied := ("[green]Replied to thread[/green] " ++ thread_id)%string in
    let resolved := ("[green]Resolved thread[/green] " ++ thread_id)%string in
    reply_cmd thread_id body false true st
    = match print_error replied with
      | Some e => (Raise e, mkState (world st1) (console st))
      | None => (Ok tt, mkState (world st1) (console st ++ [replied])%list)
      end
    /\
    (forall (resolve_result : json) (st2 : State W),
        resolve_th thread_id st1 = (Ok resolve_result, st2) ->
        reply_cmd thread_id body true true st
        = match print_error replied with
          | Some e => (Raise e, mkState (world st2) (console st))
          | None =>
              match print_error resolved with
              | Some e =>
                  (Raise e, mkState (world st2) (console st ++ [replied])%list)
              | None =>
                  (Ok tt,
                   mkState (world st2)
                     (console st ++ [replied; resolved])%list)
              end
          end).
Proof.
  intros thread_id body st st1 r Hreply replied resolved.
  pose proof (run_graphql_ok_silent _ _ _ _ _ _ _ _ _ Hreply) as Hc1.
  split.
  - unfold reply, bind at 1. rewrite Hreply.
    unfold bind at 1, ret at 1. unfold bind. rewrite rprint_cases.
    fold replied. destruct (print_error replied); cbn [world console].
    + destruct st1 as [w1 c1]. cbn in Hc1 |- *. now subst c1.
    + unfold ret. cbn [world console]. now rewrite Hc1.
  - intros r2 st2 Hresolve.
    pose proof (run_graphql_ok_silent _ _ _ _ _ _ _ _ _ Hresolve) as Hc2.
    unfold reply, bind at 1. rewrite Hreply.
    unfold bind at 1. rewrite Hresolve.
    unfold bind. rewrite rprint_cases. fold replied.
    destruct (print_error replied); cbn [world console].
    + destruct st2 as [w2 c2]. cbn in Hc2 |- *. subst c2. now rewrite Hc1.
    + rewrite rprint_cases. fold resolved. cbn [world console].
      rewrite Hc2, Hc1.
      destruct (print_error resolved); [reflexivity|].
      now rewrite <- List.app_assoc.
Qed.

(** X15.  When the process of the reply mutation ends with a non-zero
    exit status, [pr reply] fails with the [GhError] of that process
    whether or not a resolve was asked for: the world is the one that
    single process left, so no resolve call was made, and nothing was
    printed. *)
Theorem reply_failure_skips_resolve :
  forall (thread_id body : string) (and_resolve pretty : bool)
         (st : State W) (path : string) (w1 : W)
         (returncode : Z) (stdout stderr : string),
    which "gh" (world st) = Some path ->
    subprocess_run
      (graphql_cmd repr_compound reply_to_thread_query
         [("threadId", JStr thread_id); ("body", JStr body)])
      30 (world st)
    = (Completed returncode stdout stderr, w1) ->
    returncode <> 0%Z ->
    reply_cmd thread_id body and_resolve pretty st
    = (Raise (GhError
                (if String.eqb (PyStr.strip stderr) ""
                 then "Command failed with exit code "
                      ++ PyStr.of_int returncode
                 else PyStr.strip stderr)),
       mkState w1 (console st)).
Proof.
  intros thread_id body and_resolve pretty st path w1 rc out err Hw Hr Hrc.
  unfold reply, bind at 1, reply_to_thread, _run_graphql, bind at 1,
    require_gh. rewrite Hw. cbn [ret].
  unfold bind at 1, _run_command, bind at 1, spawn. rewrite Hr.
  apply Z.eqb_neq in Hrc. rewrite Hrc. cbn [negb].
  now destruct (String.eqb (PyStr.strip err) "").
Qed.

(** X16.  After a successful resolve [pr resolve] writes one line: the
    JSON of the response, or in the pretty mode the [Resolved thread]
    line for the given id, which does not look at the response and goes
    through [rprint]: when rich raises on it, the command ends with
    that exception, nothing printed, although the thread was resolved. *)
Theorem resolve_output :
  forall (thread_id : string) (st st1 : State W) (result : json),
    resolve_th thread_id st = (Ok result, st1) ->
    let line := ("[green]Resolved thread[/green] " ++ thread_id)%string in
    resolve_cmd thread_id false st
    = (Ok tt, mkState (world st1) (console st ++ [json_dumps result])%list)
    /\
    resolve_cmd thread_id true st
    = match print_error line with
      | Some e => (Raise e, mkState (world st1) (console st))
      | None => (Ok tt, mkState (world st1) (console st ++ [line])%list)
      end.
Proof.
  intros thread_id st st1 r Hres line.
  pose proof (run_graphql_ok_silent _ _ _ _ _ _ _ _ _ Hres) as Hc.
  unfold resolve, bind. rewrite Hres. split.
  - unfold _json_out, echo. now rewrite Hc.
  - rewrite rprint_cases. fold line. rewrite Hc.
    destruct (print_error line); [|reflexivity].
    destruct st1 as [w1 c1]. cbn in Hc |- *. now subst c1.
Qed.

(** X17.  [pr info] prints the parsed response as JSON whatever its
    shape.  In the pretty mode it hands the PR, URL and branch lines to
    [rprint] one by one: the command stops at the first line rich raises
    on, with the lines before it printed, and a response that has
    [number] but no [url] gets its PR line printed before the command
    fails with [KeyError] for [url]. *)
Theorem info_output :
  forall (st st1 : State W) (data : json),
    pr_info st = (Ok data, st1) ->
    info_cmd false st
    = (Ok tt, mkState (world st1) (console st ++ [json_dumps data])%list)
    /\
    (forall fields number url branch,
        data = JObj fields ->
        Py.lookup "number" fields = Some number ->
        Py.lookup "url" fields = Some url ->
        Py.lookup "headRefName" fields = Some branch ->
        let pr_line :=
          ("  PR  : [bold cyan]#" ++ str repr_compound number
           ++ "[/bold cyan]")%string in
        let url_line :=
          ("  URL : [link=" ++ str repr_compound url ++ "]"
           ++ str repr_compound url ++ "[/link]")%string in
        let branch_line :=
          ("  Branch: " ++ str repr_compound branch)%string in
        let printed lines := mkState (world st1) (console st ++ lines)%list in
        info_cmd true st
        = match print_error pr_line with
          | Some e => (Raise e, printed [])
          | None =>
              match print_error url_line with
              | Some e => (Raise e, printed [pr_line])
              | None =>
                  match print_error branch_line with
                  | Some e => (Raise e, printed [pr_line; url_line])
                  | None => (Ok tt, printed [pr_line; url_line; branch_line])
                  end
              end
          end)
    /\
    (forall fields number,
        data = JObj fields ->
        Py.lookup "number" fields = Some number ->
        Py.lookup "url" fields = None ->
        let pr_line :=
          ("  PR  : [bold cyan]#" ++ str repr_compound number
           ++ "[/bold cyan]")%string in
        info_cmd true st
        = match print_error pr_line with
          | Some e => (Raise e, mkState (world st1) (console st))
          | None =>
              (Raise (KeyError "url"),
               mkState (world st1) (console st ++ [pr_line])%list)
          end).
Proof.
  intros st st1 data Hinfo.
  pose proof (pr_json_silent _ _ _ _ Hinfo) as Hc.
  split; [|split].
  - unfold info, bind. fold pr_info. rewrite Hinfo.
    unfold _json_out, echo. now rewrite Hc.
  - intros fields number url branch -> Hn Hu Hb pr_line url_line branch_line
      printed.
    unfold info, bind at 1. fold pr_info. rewrite Hinfo.
    unfold bind, lift, Py.subscript. rewrite Hn, Hu, Hb.
    rewrite rprint_cases. fold pr_line. subst printed. cbv beta.
    rewrite List.app_nil_r.
    destruct st1 as [w1 c1]. cbn in Hc. subst c1. cbn [world console].
    destruct (print_error pr_line); [reflexivity|].
    rewrite rprint_cases. fold url_line. cbn [world console].
    destruct (print_error url_line); [reflexivity|].
    rewrite rprint_cases. fold branch_line. cbn [world console].
    destruct (print_error branch_line); now rewrite <- !List.app_assoc.
  - intros fields number -> Hn Hu pr_line.
    unfold info, bind at 1. fold pr_info. rewrite Hinfo.
    unfold bind, lift, Py.subscript. rewrite Hn, Hu.
    rewrite rprint_cases. fold pr_line.
    destruct st1 as [w1 c1]. cbn in Hc. subst c1. cbn [world console].
    now destruct (print_error pr_line).
Qed.

(** X18.  In the pretty mode an empty result prints a one-line notice
    and builds no table: [No checks found.] for [pr checks], and
    [No unresolved threads.] for [pr threads], there also when all
    threads, resolved ones included, were asked for. *)
Theorem empty_results_pretty :
  (forall (st st1 : State W) (check_list : json),
      pr_checks st = (Ok check_list, st1) ->
      Py.truthy check_list = false ->
      checks_cmd true st
      = (Ok tt,
         mkState (world st1)
           (console st ++ ["[dim]No checks found.[/dim]"])%list))
  /\
  (forall (owner repo : string) (pr : Z) (all_threads : bool)
          (st st1 : State W) (thread_list : json),
      fetch_review_threads which subprocess_run json_loads repr_compound
        owner repo pr all_threads st = (Ok thread_list, st1) ->
      Py.truthy thread_list = false ->
      threads_cmd (Some owner) (Some repo) (Some pr) all_threads true st
      = (Ok tt,
         mkState (world st1)
           (console st ++ ["[green]No unresolved threads.[/green]"])%list)).
Proof.
  split.
  - intros st st1 check_list Hchecks Hfalsy.
    pose proof (pr_json_silent _ _ _ _ Hchecks) as Hc.
    unfold checks, bind. fold pr_checks. rewrite Hchecks, Hfalsy.
    cbn [negb]. rewrite (rprint_prints _ _ no_checks_prints).
    now rewrite Hc.
  - intros owner repo pr all_threads st st1 thread_list Hfetch Hfalsy.
    pose proof (fetch_ok_silent _ _ _ _ _ _ _ Hfetch) as Hc.
    unfold threads, bind, ret.
    change (fetch_review_threads_dyn which subprocess_run json_loads
              repr_compound (fst (owner, repo)) (snd (owner, repo))
              (JInt pr) all_threads st)
      with (fetch_review_threads which subprocess_run json_loads
              repr_compound owner repo pr all_threads st).
    rewrite Hfetch, Hfalsy. cbn [negb].
    rewrite (rprint_prints _ _ no_threads_prints). now rewrite Hc.
Qed.

(** X19.  When the owner or the repository option is missing,
    [pr threads] reads the remote once and then behaves as if it had
    been given both: an option that was given and is not empty wins, a
    missing or empty one is taken from the remote. *)
Theorem threads_detects_names :
  forall (owner repo : option string) (pr : option Z)
         (all_threads pretty : bool) (st st1 : State W)
         (detected_owner detected_repo : string),
    owner = None \/ repo = None ->
    get_repo_info subprocess_run st
    = (Ok (detected_owner, detected_repo), st1) ->
    threads_cmd owner repo pr all_threads pretty st
    = threads_cmd (Some (or_else owner detected_owner))
                  (Some (or_else repo detected_repo))
                  pr all_threads pretty st1.
Proof.
  intros owner repo pr all_threads pretty st st1 d_owner d_repo Hmiss Hrepo.
  unfold threads, bind at 1.
  destruct owner as [o|], repo as [r|];
    try (destruct Hmiss; discriminate);
    unfold bind at 1; rewrite Hrepo; reflexivity.
Qed.

(** X20.  When the PR option is missing, [pr threads] asks [gh pr view]
    and then behaves as if it had been given the [number] of the answer;
    an answer without [number] ends the command with [KeyError], before
    any thread is fetched. *)
Theorem threads_detects_number :
  forall (owner repo : string) (all_threads pretty : bool)
         (st st1 : State W) (answer : json),
    pr_info st = (Ok answer, st1) ->
    (forall n,
        Py.subscript answer "number" = Ok (JInt n) ->
        threads_cmd (Some owner) (Some repo) None all_threads pretty st
        = threads_cmd (Some owner) (Some repo) (Some n) all_threads pretty
            st1)
    /\
    (forall fields,
        answer = JObj fields ->
        Py.lookup "number" fields = None ->
        threads_cmd (Some owner) (Some repo) None all_threads pretty st
        = (Raise (KeyError "number"), st1)).
Proof.
  intros owner repo all_threads pretty st st1 answer Hinfo. split.
  - intros n Hn. unfold threads, bind at 1. cbn [ret].
    unfold bind at 1, bind at 1. fold pr_info. rewrite Hinfo.
    unfold lift at 1. rewrite Hn. reflexivity.
  - intros fields -> Hn. unfold threads, bind at 1. cbn [ret].
    unfold bind at 1, bind at 1. fold pr_info. rewrite Hinfo.
    unfold lift at 1, Py.subscript. rewrite Hn. reflexivity.
Qed.

End PrCommands.

(* ===================================================================== *)
(** ** Further properties: the tool check of [cli.py] *)
(* ===================================================================== *)

Section ToolStatus.

Context {W : Type}.
Variable which : string -> W -> option string.
Variable subprocess_run : list string -> Z -> W -> run_outcome * W.

#[local] Abbreviation tool_status := (_tool_status which subprocess_run).

Lemma linebreak_isspace (c : ascii) :
  PyStr.is_linebreak c = true -> PyStr.isspace c = true.
Proof.
  destruct c as [[] [] [] [] [] [] [] []]; intros H;
    solve [reflexivity | discriminate H].
Qed.

Lemma splitlines_first (s : string) :
  (s = "" /\ PyStr.splitlines s = []) \/
  (exists more, PyStr.splitlines s = first_line s :: more).
Proof.
  induction s as [|c s IH]; [now left|]. right.
  cbn [PyStr.splitlines first_line].
  destruct (PyStr.is_linebreak c).
  - destruct c as [[] [] [] [] [] [] [] []]; try (now eexists);
      destruct s as [|[[] [] [] [] [] [] [] []] s']; now eexists.
  - destruct IH as [[-> ->]|[more ->]]; now eexists.
Qed.

Lemma first_line_single (s : string) :
  all_in not_linebreak (first_line s) = true.
Proof.
  induction s as [|c s IH]; [reflexivity|]. cbn [first_line].
  destruct (PyStr.is_linebreak c) eqn:E; [reflexivity|].
  cbn [all_in]. unfold not_linebreak at 1. now rewrite E, IH.
Qed.

Lemma rstrip_keeps_head (c : ascii) (s : string) :
  PyStr.isspace c = false ->
  exists r, PyStr.rstrip (String c s) = String c r.
Proof.
  intros Hc. cbn [PyStr.rstrip]. rewrite Hc.
  destruct (PyStr.rstrip s); eauto.
Qed.

Lemma lstrip_head (s : string) :
  PyStr.lstrip s = "" \/
  exists c r, PyStr.lstrip s = String c r /\ PyStr.isspace c = false.
Proof.
  induction s as [|c s IH]; [now left|]. cbn [PyStr.lstrip].
  destruct (PyStr.isspace c) eqn:E; [assumption|]. right. eauto.
Qed.

(** A stripped text is empty or starts with a character that is no
    whitespace. *)
Lemma strip_head (s : string) :
  PyStr.strip s = "" \/
  exists c r, PyStr.strip s = String c r /\ PyStr.isspace c = false.
Proof.
  unfold PyStr.strip. destruct (lstrip_head s) as [->|(c & r & -> & Hc)].
  - now left.
  - right. destruct (rstrip_keeps_head c r Hc) as [r' ->]. eauto.
Qed.

(** X21.  [_tool_status] never raises and never prints.  For a tool that
    is not on the PATH it answers [(False, "")] without spawning a
    process; for a tool that is on the PATH it answers [True] after its
    one [--version] process, whatever that process did. *)
Theorem tool_status_total :
  forall (name : string) (st : State W),
    exists found details st',
      tool_status name st = (Ok (found, details), st') /\
      console st' = console st /\
      (which name (world st) = None ->
       found = false /\ details = "" /\ st' = st) /\
      (forall path,
          which name (world st) = Some path ->
          found = true /\
          world st'
          = snd (subprocess_run [name; "--version"] 5 (world st))).
Proof.
  intros name st. unfold _tool_status, bind, try_except, spawn_version, ret.
  destruct (which name (world st)) as [path|].
  - destruct (subprocess_run [name; "--version"] 5%Z (world st)) as [o w1].
    destruct o as [rc out err|e]; cbn.
    + destruct (PyStr.splitlines _); cbn;
        (do 3 eexists; split; [reflexivity|]; split; [reflexivity|];
         split; [discriminate | intros p _; split; reflexivity]).
    + do 3 eexists. split; [reflexivity|]. split; [reflexivity|].
      split; [discriminate | intros p _; split; reflexivity].
  - exists false, "", st. repeat split; try reflexivity; discriminate.
Qed.

(** X22.  When the [--version] process of a tool that is on the PATH
    prints something other than whitespace, on its standard output or,
    if that is empty, on its standard error, the detail reported is the
    first line of that text without the surrounding whitespace: it is not
    empty and holds no line boundary.  The exit status plays no part. *)
Theorem tool_status_version_line :
  forall (name path : string) (st : State W) (w1 : W)
         (returncode : Z) (stdout stderr : string),
    which name (world st) = Some path ->
    subprocess_run [name; "--version"] 5 (world st)
    = (Completed returncode stdout stderr, w1) ->
    PyStr.strip (version_text stdout stderr) <> "" ->
    let details := first_line (PyStr.strip (version_text stdout stderr)) in
    tool_status name st = (Ok (true, details), mkState w1 (console st)) /\
    details <> "" /\
    all_in not_linebreak details = true.
Proof.
  intros name path st w1 rc out err Hw Hr Hne details.
  split; [|split].
  - unfold _tool_status, bind, try_except, spawn_version, ret.
    rewrite Hw, Hr. cbn. fold (version_text out err).
    destruct (splitlines_first (PyStr.strip (version_text out err)))
      as [[E _]|[more ->]]; [congruence | reflexivity].
  - subst details.
    destruct (strip_head (version_text out err)) as [E|(c & r & E & Hc)];
      [congruence|].
    rewrite E. cbn [first_line].
    destruct (PyStr.is_linebreak c) eqn:Hl; [|discriminate].
    apply linebreak_isspace in Hl. congruence.
  - apply first_line_single.
Qed.

(** X23.  The detail falls back to the path of the tool whenever no
    version line can be had: when the process cannot be run or times out
    (any exception), and when the text looked at is empty or all
    whitespace.  The standard error is looked at only when the standard
    output is empty, so a tool that prints a bare newline on its standard
    output is reported by its path whatever its standard error says. *)
Theorem tool_status_fallback :
  forall (name path : string) (st : State W) (w1 : W),
    which name (world st) = Some path ->
    (forall e,
        subprocess_run [name; "--version"] 5 (world st) = (RunRaises e, w1) ->
        tool_status name st = (Ok (true, path), mkState w1 (console st)))
    /\
    (forall returncode stdout stderr,
        subprocess_run [name; "--version"] 5 (world st)
        = (Completed returncode stdout stderr, w1) ->
        all_in PyStr.isspace (version_text stdout stderr) = true ->
        tool_status name st = (Ok (true, path), mkState w1 (console st)))
    /\
    (forall returncode stdout stderr,
        subprocess_run [name; "--version"] 5 (world st)
        = (Completed returncode stdout stderr, w1) ->
        stdout <> "" ->
        all_in PyStr.isspace stdout = true ->
        tool_status name st = (Ok (true, path), mkState w1 (console st))).
Proof.
  intros name path st w1 Hw.
  assert (Hblank : forall rc out err,
             subprocess_run [name; "--version"] 5%Z (world st)
             = (Completed rc out err, w1) ->
             all_in PyStr.isspace (version_text out err) = true ->
             tool_status name st = (Ok (true, path), mkState w1 (console st))).
  { intros rc out err Hr Hb.
    unfold _tool_status, bind, try_except, spawn_version, ret.
    rewrite Hw, Hr. cbn. fold (version_text out err).
    now rewrite (strip_blank _ Hb). }
  split; [|split].
  - intros e Hr. unfold _tool_status, bind, try_except, spawn_version, ret.
    now rewrite Hw, Hr.
  - exact Hblank.
  - intros rc out err Hr Hne Hb. apply (Hblank rc out err Hr).
    unfold version_text. apply String.eqb_neq in Hne. now rewrite Hne.
Qed.

End ToolStatus.

(* ===================================================================== *)
(** ** Further properties: the remote URL *)
(* ===================================================================== *)

Section RemoteUrl.

Import StrFacts ReFacts ShapeFacts.

Context {W : Type} {rich : Rich}.
Variable subprocess_run : list string -> Z -> W -> run_outcome * W.

Lemma segments_not_nil (s : string) : segments s <> [].
Proof.
  induction s as [|c s IH]; cbn [segments]; [discriminate|].
  destruct (Ascii.eqb c "/"); [discriminate|].
  destruct (segments s); [congruence | discriminate].
Qed.

Lemma segments_single (s b : string) :
  segments s = [b] -> s = b /\ PyStr.has_char "/" s = false.
Proof.
  revert b. induction s as [|c s IH]; intros b H; cbn [segments] in H.
  - injection H as <-. auto.
  - cbn [PyStr.has_char]. rewrite (Ascii.eqb_sym "/" c).
    destruct (Ascii.eqb c "/").
    + injection H as _ H. now apply segments_not_nil in H.
    + destruct (segments s) as [|seg more] eqn:E;
        [now apply segments_not_nil in E|].
      injection H as <- ->. destruct (IH seg eq_refl) as [-> Hs].
      cbn [orb]. auto.
Qed.

Lemma segments_pair (s a b : string) :
  segments s = [a; b] ->
  s = a ++ "/" ++ b /\
  PyStr.has_char "/" a = false /\ PyStr.has_char "/" b = false.
Proof.
  revert a. induction s as [|c s IH]; intros a H; cbn [segments] in H;
    [discriminate|].
  destruct (Ascii.eqb_spec c "/") as [->|Hc].
  - injection H as <- H. destruct (segments_single _ _ H) as [-> Hs]. auto.
  - destruct (segments s) as [|seg more] eqn:E;
      [now apply segments_not_nil in E|].
    injection H as <- ->. destruct (IH seg eq_refl) as (-> & Ha & Hb).
    cbn [PyStr.has_char]. apply Ascii.eqb_neq in Hc.
    rewrite (Ascii.eqb_sym "/" c), Hc. auto.
Qed.

Lemma star_lazy_exists cls (a b : string) k :
  all_in cls a = true ->
  (exists m, k b = Some m) ->
  exists m, Re.star_lazy cls (a ++ b) k = Some m.
Proof.
  intros Ha [m Hb]. induction a as [|c a IH].
  - exists m. cbn [append]. destruct b; cbn [Re.star_lazy]; now rewrite Hb.
  - cbn [all_in] in Ha. apply andb_true_iff in Ha. destruct Ha as [Hc Ha].
    cbn [append Re.star_lazy].
    destruct (k (String c (a ++ b))) as [m'|]; [now exists m'|].
    rewrite Hc. auto.
Qed.

(** A path of two non-empty segments is matched. *)
Lemma run_path_exists (path : string) :
  two_segments path = true -> exists m, run_path path = Some m.
Proof.
  unfold two_segments.
  destruct (segments path) as [|owner [|repo [|x more]]] eqn:E;
    try discriminate.
  intros H. apply andb_true_iff in H. destruct H as [Ho Hr].
  apply negb_true_iff in Ho, Hr. apply String.eqb_neq in Ho, Hr.
  destruct (segments_pair _ _ _ E) as (-> & Hso & Hsr).
  destruct owner as [|c o]; [congruence|].
  destruct repo as [|d r]; [congruence|].
  assert (Ao : all_in (Re.not_char "/") (String c o) = true)
    by (rewrite all_in_not_char, Hso; reflexivity).
  assert (Ar : all_in (Re.not_char "/") (String d r) = true)
    by (rewrite all_in_not_char, Hsr; reflexivity).
  cbn [all_in] in Ao, Ar. apply andb_true_iff in Ao, Ar.
  destruct Ao as [Hc Ao], Ar as [Hd Ar].
  unfold run_path, Re.cat. cbn [fold_right]. cbn [Re.run].
  cbn [append Re.plus]. rewrite Hc.
  rewrite star_greedy_skip; [| |assumption].
  2:{ intros x s' Hx. now rewrite (RemoteFacts.not_slash_true x Hx). }
  cbn [append Re.star_greedy]. change (Re.not_char "/" "/") with false.
  cbv iota. change (Ascii.eqb "/" "/") with true. cbv iota.
  cbn [Re.plus]. rewrite Hd.
  match goal with
  | |- exists m, Re.star_lazy ?cls r ?k = Some m =>
      pose proof (star_lazy_exists cls r "" k Ar) as Hex
  end.
  rewrite app_nil_r in Hex. apply Hex.
  rewrite RemoteFacts.run_repo_tail. cbn. eauto.
Qed.

(** [parse_remote] returns exactly on the texts of the accepted shape,
    and then leaves the state as it was. *)
Lemma parse_remote_ok_iff_shape (raw : string) (st st' : State W) :
  (exists owner repo, parse_remote raw st = (Ok (owner, repo), st')) <->
  remote_shape (PyStr.strip raw) = true /\ st' = st.
Proof.
  split.
  - intros (owner & repo & H).
    assert (Hst : st' = st).
    { revert H. unfold parse_remote.
      destruct (Re.match_ ssh_pattern _); [now intros [= _ _ <-]|].
      destruct (Re.match_ https_pattern _); [now intros [= _ _ <-]|].
      intros H. now apply rprint_then_raise_not_ok in H. }
    split; [|assumption].
    apply parse_remote_ok_inv in H.
    destruct H as (prefix & path & Hp & Hs & Hm).
    apply run_path_two_segments in Hm. rewrite Hs. unfold remote_shape.
    destruct Hp as [-> | ->].
    + now rewrite strip_prefix_app.
    + now rewrite https_prefix_not_ssh, strip_prefix_app.
  - intros [Hshape ->]. unfold remote_shape in Hshape. unfold parse_remote.
    rewrite RemoteFacts.ssh_pattern_eq, RemoteFacts.https_pattern_eq.
    rewrite !RemoteFacts.match_remote_path.
    destruct (strip_prefix "git@github.com:" (PyStr.strip raw)) as [path|].
    + destruct (run_path_exists _ Hshape) as [m ->].
      do 2 eexists. reflexivity.
    + destruct (strip_prefix "https://github.com/" (PyStr.strip raw))
        as [path|]; [|discriminate].
      destruct (run_path_exists _ Hshape) as [m ->].
      do 2 eexists. reflexivity.
Qed.

(** X24.  [get_repo_info] returns an owner and a repository exactly
    when the [git remote get-url origin] process exits with status 0 and
    what it printed, stripped, is one of the two fixed prefixes followed
    by exactly two non-empty segments; it has then printed nothing. *)
Theorem get_repo_info_ok_iff :
  forall (st st' : State W),
    (exists owner repo,
        get_repo_info subprocess_run st = (Ok (owner, repo), st')) <->
    (exists stdout stderr,
        subprocess_run ["git"; "remote"; "get-url"; "origin"] 30 (world st)
        = (Completed 0 stdout stderr, world st') /\
        remote_shape (PyStr.strip stdout) = true) /\
    console st' = console st.
Proof.
  intros st st'. unfold get_repo_info, bind at 1, _run_command, bind, spawn.
  destruct (subprocess_run ["git"; "remote"; "get-url"; "origin"] 30%Z
              (world st)) as [o w1].
  split.
  - intros (owner & repo & H). destruct o as [rc out err|e].
    + destruct (rc =? 0)%Z eqn:Hrc; cbn [negb] in H; [|discriminate].
      apply Z.eqb_eq in Hrc. subst rc. cbn in H.
      assert (H' : exists o r, parse_remote out (mkState w1 (console st))
                               = (Ok (o, r), st')) by eauto.
      apply parse_remote_ok_iff_shape in H'. destruct H' as [Hs ->].
      cbn. split; [|reflexivity]. exists out, err. auto.
    + destruct e; try discriminate.
      unfold rprint in H. destruct (print_error _); discriminate.
  - intros [(stdout & stderr & Hr & Hshape) Hc].
    injection Hr as -> Hw. cbn.
    apply parse_remote_ok_iff_shape. split; [assumption|].
    destruct st' as [w' c']. cbn in Hw, Hc. now subst.
Qed.

(** X25.  The remote URL can be rebuilt from what [parse_remote]
    returns: the stripped text is one of the two fixed prefixes, the
    owner, a slash and the repository, with nothing after it or just
    [.git]; the state is left as it was. *)
Theorem parse_remote_rebuilds :
  forall (raw owner repo : string) (st st' : State W),
    parse_remote raw st = (Ok (owner, repo), st') ->
    st' = st /\
    exists prefix suffix,
      (prefix = "git@github.com:" \/ prefix = "https://github.com/") /\
      (suffix = "" \/ suffix = ".git") /\
      PyStr.strip raw = prefix ++ owner ++ "/" ++ repo ++ suffix.
Proof.
  intros raw owner repo st st' H.
  assert (H' : exists o r, parse_remote raw st = (Ok (o, r), st')) by eauto.
  apply parse_remote_ok_iff_shape in H'. destruct H' as [_ Hst].
  split; [assumption|].
  apply parse_remote_ok_inv in H.
  destruct H as (prefix & path & Hp & Hs & Hm).
  apply RemoteFacts.run_path_sound in Hm.
  destruct Hm as (o & r & sfx & -> & _ & _ & _ & _ & Hsfx & E).
  injection E as -> ->.
  assert (Hnl : forall a, PyStr.strip raw <> a ++ String "010" "").
  { intros a Ha. apply strip_last in Ha. discriminate. }
  exists prefix, sfx. split; [assumption|]. split; [|assumption].
  apply tail_ok_cases in Hsfx.
  destruct Hsfx as [->|[->|[->| ->]]]; auto; exfalso.
  - apply (Hnl (prefix ++ o ++ "/" ++ r)). rewrite Hs.
    now rewrite !app_assoc.
  - apply (Hnl (prefix ++ o ++ "/" ++ r ++ ".git")). rewrite Hs.
    now rewrite !app_assoc.
Qed.

Lemma rstrip_idempotent (s : string) :
  PyStr.rstrip (PyStr.rstrip s) = PyStr.rstrip s.
Proof.
  induction s as [|c s IH]; [reflexivity|]. cbn [PyStr.rstrip].
  destruct (PyStr.rstrip s) as [|y r] eqn:E.
  - destruct (PyStr.isspace c) eqn:Hc; [reflexivity|].
    cbn [PyStr.rstrip]. now rewrite Hc.
  - change (PyStr.rstrip (String c (String y r)))
      with (match PyStr.rstrip (String y r) with
            | EmptyString =>
                if PyStr.isspace c then EmptyString else String c EmptyString
            | String a s0 => String c (String a s0)
            end).
    now rewrite IH.
Qed.

Lemma strip_idempotent (s : string) :
  PyStr.strip (PyStr.strip s) = PyStr.strip s.
Proof.
  destruct (strip_head s) as [E|(c & r & E & Hc)].
  - now rewrite E.
  - unfold PyStr.strip at 1. rewrite E. cbn [PyStr.lstrip]. rewrite Hc.
    rewrite <- E. unfold PyStr.strip. apply rstrip_idempotent.
Qed.

(** X26.  Whitespace around the remote URL plays no part: on a text and
    on the same text stripped, [parse_remote] gives the same outcome,
    the line it prints on failure included. *)
Theorem parse_remote_ignores_whitespace :
  forall (raw : string) (st : State W),
    parse_remote (PyStr.strip raw) st = parse_remote raw st.
Proof.
  intros raw st. unfold parse_remote. now rewrite strip_idempotent.
Qed.

End RemoteUrl.

(* ===================================================================== *)
(** ** Further concrete runs *)
(* ===================================================================== *)

Module MoreRuns.

Import Scenario.

#[local] Existing Instance Scenario.rich.

#[local] Abbreviation graphql :=
  (_run_graphql which subprocess_run json_loads_more repr_entry).

Lemma gh_answers_more repr query variables text stderr rest :
  gh_answers which subprocess_run repr query variables
    (with_gh (Completed 0 text stderr :: rest)) text
    (mkWorld (Some "/usr/bin/gh") rest).
Proof. split; [now exists "/usr/bin/gh" | now exists stderr]. Qed.

(** X2: outside a git repository [git] exits with status 128 and a
    message that ends in a newline; a failure that prints nothing gets
    the generic message. *)
Lemma run_command_failure_message_witness :
  _run_command subprocess_run ["git"; "remote"; "get-url"; "origin"]
    (with_gh [Completed 128 ""
                (String.append "fatal: not a git repository"
                               (String "010" ""))])
  = (Raise (GhError "fatal: not a git repository"), with_gh [])
  /\
  _run_command subprocess_run ["git"; "remote"; "get-url"; "origin"]
    (with_gh [Completed 2 "" (String "010" "")])
  = (Raise (GhError "Command failed with exit code 2"), with_gh []).
Proof.
  split.
  - destruct (run_command_failure_message subprocess_run
                ["git"; "remote"; "get-url"; "origin"]
                (with_gh [Completed 128 ""
                            (String.append "fatal: not a git repository"
                                           (String "010" ""))])
                (mkWorld (Some "/usr/bin/gh") []) 128 ""
                (String.append "fatal: not a git repository"
                               (String "010" ""))
                eq_refl ltac:(discriminate))
      as (msg & H & _ & _ & Hmsg).
    rewrite H, (Hmsg ltac:(discriminate)). reflexivity.
  - destruct (run_command_failure_message subprocess_run
                ["git"; "remote"; "get-url"; "origin"]
                (with_gh [Completed 2 "" (String "010" "")])
                (mkWorld (Some "/usr/bin/gh") []) 2 "" (String "010" "")
                eq_refl ltac:(discriminate))
      as (msg & H & _ & Hmsg & _).
    rewrite H, (Hmsg eq_refl). reflexivity.
Defined.

(** X3: a missing executable, named in the line printed; and one whose
    name reads as a closing tag, on which rich raises. *)
Lemma run_command_console_witness :
  _run_command subprocess_run ["glab"; "mr"; "view"]
    (with_gh [RunRaises FileNotFoundError])
  = (Raise (Exit 1),
     mkState (mkWorld (Some "/usr/bin/gh") [])
       ["[red]Error:[/red] Command not found: glab"])
  /\
  _run_command subprocess_run ["./tools[/bin]/lint"]
    (with_gh [RunRaises FileNotFoundError])
  = (Raise MarkupError, with_gh []).
Proof.
  split.
  - exact (proj1 (run_command_console subprocess_run ["glab"; "mr"; "view"]
                    (with_gh [RunRaises FileNotFoundError])
                    (RunRaises FileNotFoundError)
                    (mkWorld (Some "/usr/bin/gh") []) eq_refl)
             "glab" ["mr"; "view"] eq_refl eq_refl).
  - exact (proj1 (run_command_console subprocess_run ["./tools[/bin]/lint"]
                    (with_gh [RunRaises FileNotFoundError])
                    (RunRaises FileNotFoundError)
                    (mkWorld (Some "/usr/bin/gh") []) eq_refl)
             "./tools[/bin]/lint" [] eq_refl eq_refl).
Defined.

(** X4: without [gh], [pr reply --resolve] stops at the guard with both
    processes still to come. *)
Lemma gh_missing_stops_everything_witness :
  reply which subprocess_run json_loads_more dumps_keys repr_entry
    "T_abc" "Fixed!" true false
    (without_gh [Completed 0 reply_text ""; Completed 0 resolve_text ""])
  = (Raise (Exit 1),
     mkState (mkWorld None
                [Completed 0 reply_text ""; Completed 0 resolve_text ""])
       ["[red]Error:[/red] 'gh' CLI not found. Install it from https://cli.github.com/"]).
Proof.
  destruct (gh_missing_stops_everything which subprocess_run json_loads_more
              dumps_keys repr_entry render_table render_table
              (without_gh [Completed 0 reply_text "";
                           Completed 0 resolve_text ""]) eq_refl)
    as (_ & _ & _ & _ & _ & _ & _ & _ & _ & H & _).
  exact (H "T_abc" "Fixed!" true false).
Defined.

(** X6: the response [null]. *)
Lemma run_graphql_non_object_witness :
  graphql "query { viewer { login } }" [] (with_gh [Completed 0 "null" ""])
  = (Raise TypeError, with_gh []).
Proof.
  exact (proj2 (run_graphql_non_object which subprocess_run json_loads_more
                  repr_entry "query { viewer { login } }" []
                  (with_gh [Completed 0 "null" ""]) "null"
                  (mkWorld (Some "/usr/bin/gh") []) JNull
                  (gh_answers_more _ _ _ _ _ _) eq_refl eq_refl) eq_refl).
Defined.

(** X7: an error given as a bare string. *)
Lemma run_graphql_bad_error_entry_witness :
  graphql "query { viewer { login } }" []
    (with_gh [Completed 0 string_error_text ""])
  = (Raise AttributeError, with_gh []).
Proof.
  apply (run_graphql_bad_error_entry which subprocess_run json_loads_more
           repr_entry "query { viewer { login } }" []
           (with_gh [Completed 0 string_error_text ""]) string_error_text
           (mkWorld (Some "/usr/bin/gh") [])
           [("errors", JList [JStr "boom"])] [JStr "boom"]
           (gh_answers_more _ _ _ _ _ _) eq_refl eq_refl).
  now constructor.
Defined.

(** X8: the second error has no message and is shown as the entry. *)
Lemma run_graphql_message_fallback_witness :
  graphql "query { viewer { login } }" []
    (with_gh [Completed 0 bare_error_text ""])
  = (Raise (Exit 1),
     mkState (mkWorld (Some "/usr/bin/gh") [])
       ["[red]GraphQL error:[/red] Bad field; {'type': 'NOT_FOUND'}"]).
Proof.
  refine (run_graphql_message_fallback which subprocess_run json_loads_more
            repr_entry "query { viewer { login } }" []
            (with_gh [Completed 0 bare_error_text ""]) bare_error_text
            (mkWorld (Some "/usr/bin/gh") [])
            [("errors", JList [JObj [("message", JStr "Bad field")];
                               JObj [("type", JStr "NOT_FOUND")]])]
            [JObj [("message", JStr "Bad field")];
             JObj [("type", JStr "NOT_FOUND")]]
            ["Bad field"; "{'type': 'NOT_FOUND'}"]
            (gh_answers_more _ _ _ _ _ _) eq_refl eq_refl _).
  constructor; [|constructor; [|constructor]].
  - eexists. split; [reflexivity|]. now left.
  - eexists. split; [reflexivity|]. right. split; reflexivity.
Defined.

(** X10: a thread whose [isResolved] is [null] is kept. *)
Lemma fetch_review_threads_falsy_flags_witness :
  fetch_review_threads which subprocess_run json_loads_more repr_entry
    "owner" "repo" 1 false (with_gh [Completed 0 null_flag_text ""])
  = (Ok (JList [JObj [("id", JStr "t1"); ("isResolved", JNull)]]),
     with_gh []).
Proof.
  apply (fetch_review_threads_falsy_flags which subprocess_run
           json_loads_more repr_entry "owner" "repo" 1
           (with_gh [Completed 0 null_flag_text ""]) null_flag_text
           (mkWorld (Some "/usr/bin/gh") [])
           (threads_response null_flag_nodes) null_flag_nodes
           (gh_answers_more _ _ _ _ _ _) eq_refl eq_refl eq_refl).
  repeat constructor.
Defined.

(** X11: the second thread has no [isResolved]. *)
Lemma fetch_review_threads_missing_flag_witness :
  fetch_review_threads which subprocess_run json_loads_more repr_entry
    "owner" "repo" 1 false (with_gh [Completed 0 missing_flag_text ""])
  = (Raise (KeyError "isResolved"), with_gh [])
  /\
  fetch_review_threads which subprocess_run json_loads_more repr_entry
    "owner" "repo" 1 true (with_gh [Completed 0 missing_flag_text ""])
  = (Ok (JList missing_flag_nodes), with_gh []).
Proof.
  apply (fetch_review_threads_missing_flag which subprocess_run
           json_loads_more repr_entry "owner" "repo" 1
           (with_gh [Completed 0 missing_flag_text ""]) missing_flag_text
           (mkWorld (Some "/usr/bin/gh") [])
           (threads_response missing_flag_nodes)
           [JObj [("id", JStr "t1"); ("isResolved", JBool false)]] []
           (JObj [("id", JStr "t2")])
           (gh_answers_more _ _ _ _ _ _) eq_refl eq_refl eq_refl).
  - repeat constructor.
  - reflexivity.
Defined.

(** X12: the pull request does not exist. *)
Lemma fetch_review_threads_bad_shape_witness :
  fetch_review_threads which subprocess_run json_loads_more repr_entry
    "owner" "repo" 999 false (with_gh [Completed 0 no_pull_request_text ""])
  = (Raise TypeError, with_gh []).
Proof.
  exact (proj1 (fetch_review_threads_bad_shape which subprocess_run
                  json_loads_more repr_entry "owner" "repo" 999 false
                  (with_gh [Completed 0 no_pull_request_text ""])
                  no_pull_request_text (mkWorld (Some "/usr/bin/gh") [])
                  [("data", JObj [("repository",
                                   JObj [("pullRequest", JNull)])])]
                  (gh_answers_more _ _ _ _ _ _) eq_refl eq_refl)
           [("repository", JObj [("pullRequest", JNull)])]
           [("pullRequest", JNull)] eq_refl eq_refl eq_refl).
Defined.

(** X13: reply and resolve both succeed; the object printed has the two
    keys. *)
Lemma reply_json_output_witness :
  reply which subprocess_run json_loads_more dumps_keys repr_entry
    "T_abc" "Fixed!" true false
    (with_gh [Completed 0 reply_text ""; Completed 0 resolve_text ""])
  = (Ok tt, mkState (mkWorld (Some "/usr/bin/gh") []) ["{reply, resolve}"]).
Proof.
  exact (proj2 (reply_json_output which subprocess_run json_loads_more
                  dumps_keys repr_entry "T_abc" "Fixed!"
                  (with_gh [Completed 0 reply_text "";
                            Completed 0 resolve_text ""])
                  (with_gh [Completed 0 resolve_text ""])
                  reply_value eq_refl)
           resolve_value (with_gh []) eq_refl).
Defined.

(** X14: the same run in the pretty mode; and a run for a thread id
    that reads as a closing tag, where both mutations are made and the
    command ends in rich's [MarkupError]. *)
Lemma reply_pretty_output_witness :
  reply which subprocess_run json_loads_more dumps_keys repr_entry
    "T_abc" "Fixed!" true true
    (with_gh [Completed 0 reply_text ""; Completed 0 resolve_text ""])
  = (Ok tt,
     mkState (mkWorld (Some "/usr/bin/gh") [])
       ["[green]Replied to thread[/green] T_abc";
        "[green]Resolved thread[/green] T_abc"])
  /\
  reply which subprocess_run json_loads_more dumps_keys repr_entry
    "T[/a]" "Fixed!" true true
    (with_gh [Completed 0 reply_text ""; Completed 0 resolve_text ""])
  = (Raise MarkupError, with_gh []).
Proof.
  split.
  - exact (proj2 (reply_pretty_output which subprocess_run json_loads_more
                    dumps_keys repr_entry "T_abc" "Fixed!"
                    (with_gh [Completed 0 reply_text "";
                              Completed 0 resolve_text ""])
                    (with_gh [Completed 0 resolve_text ""])
                    reply_value eq_refl)
             resolve_value (with_gh []) eq_refl).
  - exact (proj2 (reply_pretty_output which subprocess_run json_loads_more
                    dumps_keys repr_entry "T[/a]" "Fixed!"
                    (with_gh [Completed 0 reply_text "";
                              Completed 0 resolve_text ""])
                    (with_gh [Completed 0 resolve_text ""])
                    reply_value eq_refl)
             resolve_value (with_gh []) eq_refl).
Defined.

(** X15: the reply process fails; the resolve process is still to come
    afterwards. *)
Lemma reply_failure_skips_resolve_witness :
  reply which subprocess_run json_loads_more dumps_keys repr_entry
    "T_abc" "Fixed!" true false
    (with_gh [Completed 1 "" "HTTP 401: Bad credentials";
              Completed 0 resolve_text ""])
  = (Raise (GhError "HTTP 401: Bad credentials"),
     with_gh [Completed 0 resolve_text ""]).
Proof.
  exact (reply_failure_skips_resolve which subprocess_run json_loads_more
           dumps_keys repr_entry "T_abc" "Fixed!" true false
           (with_gh [Completed 1 "" "HTTP 401: Bad credentials";
                     Completed 0 resolve_text ""])
           "/usr/bin/gh"
           (mkWorld (Some "/usr/bin/gh") [Completed 0 resolve_text ""])
           1 "" "HTTP 401: Bad credentials"
           eq_refl eq_refl ltac:(discriminate)).
Defined.

(** X16: [pr resolve --pretty], for a plain thread id and for one that
    reads as a closing tag. *)
Lemma resolve_output_witness :
  resolve which subprocess_run json_loads_more dumps_keys repr_entry
    "T_abc" true (with_gh [Completed 0 resolve_text ""])
  = (Ok tt,
     mkState (mkWorld (Some "/usr/bin/gh") [])
       ["[green]Resolved thread[/green] T_abc"])
  /\
  resolve which subprocess_run json_loads_more dumps_keys repr_entry
    "T[/a]" true (with_gh [Completed 0 resolve_text ""])
  = (Raise MarkupError, with_gh []).
Proof.
  split.
  - exact (proj2 (resolve_output which subprocess_run json_loads_more
                    dumps_keys repr_entry "T_abc"
                    (with_gh [Completed 0 resolve_text ""]) (with_gh [])
                    resolve_value eq_refl)).
  - exact (proj2 (resolve_output which subprocess_run json_loads_more
                    dumps_keys repr_entry "T[/a]"
                    (with_gh [Completed 0 resolve_text ""]) (with_gh [])
                    resolve_value eq_refl)).
Defined.

(** X17: [pr info --pretty] on a complete answer, and on an answer that
    has the number only. *)
Lemma info_output_witness :
  info which subprocess_run json_loads_more dumps_keys repr_entry true
    (with_gh [Completed 0 pr_info_text ""])
  = (Ok tt,
     mkState (mkWorld (Some "/usr/bin/gh") [])
       ["  PR  : [bold cyan]#42[/bold cyan]";
        "  URL : [link=https://github.com/a/b/pull/42]https://github.com/a/b/pull/42[/link]";
        "  Branch: feat/x"])
  /\
  info which subprocess_run json_loads_more dumps_keys repr_entry true
    (with_gh [Completed 0 pr_number_only_text ""])
  = (Raise (KeyError "url"),
     mkState (mkWorld (Some "/usr/bin/gh") [])
       ["  PR  : [bold cyan]#42[/bold cyan]"]).
Proof.
  split.
  - exact (proj1 (proj2 (info_output which subprocess_run json_loads_more
                           dumps_keys repr_entry
                           (with_gh [Completed 0 pr_info_text ""])
                           (with_gh []) pr_info_value eq_refl))
             [("number", JInt 42);
              ("url", JStr "https://github.com/a/b/pull/42");
              ("headRefName", JStr "feat/x")]
             (JInt 42) (JStr "https://github.com/a/b/pull/42")
             (JStr "feat/x") eq_refl eq_refl eq_refl eq_refl).
  - exact (proj2 (proj2 (info_output which subprocess_run json_loads_more
                           dumps_keys repr_entry
                           (with_gh [Completed 0 pr_number_only_text ""])
                           (with_gh []) pr_number_only_value eq_refl))
             [("number", JInt 42)] (JInt 42) eq_refl eq_refl eq_refl).
Defined.

(** X18: no checks, and no threads although all were asked for. *)
Lemma empty_results_pretty_witness :
  checks which subprocess_run json_loads_more dumps_keys render_table true
    (with_gh [Completed 0 "[]" ""])
  = (Ok tt,
     mkState (mkWorld (Some "/usr/bin/gh") [])
       ["[dim]No checks found.[/dim]"])
  /\
  threads which subprocess_run json_loads_more dumps_keys repr_entry
    render_table (Some "a") (Some "b") (Some 7%Z) true true
    (with_gh [Completed 0 no_threads_text ""])
  = (Ok tt,
     mkState (mkWorld (Some "/usr/bin/gh") [])
       ["[green]No unresolved threads.[/green]"]).
Proof.
  split.
  - exact (proj1 (empty_results_pretty which subprocess_run json_loads_more
                    dumps_keys repr_entry render_table render_table)
             (with_gh [Completed 0 "[]" ""]) (with_gh []) (JList [])
             eq_refl eq_refl).
  - exact (proj2 (empty_results_pretty which subprocess_run json_loads_more
                    dumps_keys repr_entry render_table render_table)
             "a" "b" 7%Z true
             (with_gh [Completed 0 no_threads_text ""]) (with_gh [])
             (JList []) eq_refl eq_refl).
Defined.

(** X19: the repository is given, the owner is read from the remote. *)
Lemma threads_detects_names_witness :
  threads which subprocess_run json_loads_more dumps_keys repr_entry
    render_table None (Some "fork") (Some 7%Z) false false
    (with_gh [Completed 0
                (String.append "git@github.com:bob/cool-project.git"
                               (String "010" "")) "";
              Completed 0 no_threads_text ""])
  = threads which subprocess_run json_loads_more dumps_keys repr_entry
      render_table (Some "bob") (Some "fork") (Some 7%Z) false false
      (with_gh [Completed 0 no_threads_text ""]).
Proof.
  exact (threads_detects_names which subprocess_run json_loads_more
           dumps_keys repr_entry render_table
           None (Some "fork") (Some 7%Z) false false
           (with_gh [Completed 0
                       (String.append "git@github.com:bob/cool-project.git"
                                      (String "010" "")) "";
                     Completed 0 no_threads_text ""])
           (with_gh [Completed 0 no_threads_text ""])
           "bob" "cool-project" (or_introl eq_refl) eq_refl).
Defined.

(** X20: the number is read from [gh pr view]; an answer without it
    stops the command. *)
Lemma threads_detects_number_witness :
  threads which subprocess_run json_loads_more dumps_keys repr_entry
    render_table (Some "a") (Some "b") None false false
    (with_gh [Completed 0 pr_info_text ""; Completed 0 no_threads_text ""])
  = threads which subprocess_run json_loads_more dumps_keys repr_entry
      render_table (Some "a") (Some "b") (Some 42%Z) false false
      (with_gh [Completed 0 no_threads_text ""])
  /\
  threads which subprocess_run json_loads_more dumps_keys repr_entry
    render_table (Some "a") (Some "b") None false false
    (with_gh [Completed 0 pr_no_number_text "";
              Completed 0 no_threads_text ""])
  = (Raise (KeyError "number"), with_gh [Completed 0 no_threads_text ""]).
Proof.
  split.
  - exact (proj1 (threads_detects_number which subprocess_run
                    json_loads_more dumps_keys repr_entry render_table
                    "a" "b" false false
                    (with_gh [Completed 0 pr_info_text "";
                              Completed 0 no_threads_text ""])
                    (with_gh [Completed 0 no_threads_text ""])
                    pr_info_value eq_refl) 42%Z eq_refl).
  - exact (proj2 (threads_detects_number which subprocess_run
                    json_loads_more dumps_keys repr_entry render_table
                    "a" "b" false false
                    (with_gh [Completed 0 pr_no_number_text "";
                              Completed 0 no_threads_text ""])
                    (with_gh [Completed 0 no_threads_text ""])
                    pr_no_number_value eq_refl)
             [("url", JStr "https://github.com/a/b/pull/42")]
             eq_refl eq_refl).
Defined.

(** X22: [git --version] prints one line and a newline. *)
Lemma tool_status_version_line_witness :
  _tool_status which_any subprocess_run "git"
    (with_gh [Completed 0 (String.append "git version 2.43.0"
                                         (String "010" "")) ""])
  = (Ok (true, "git version 2.43.0"), with_gh []).
Proof.
  exact (proj1 (tool_status_version_line which_any subprocess_run
                  "git" "/usr/bin/git"
                  (with_gh [Completed 0 (String.append "git version 2.43.0"
                                                       (String "010" "")) ""])
                  (mkWorld (Some "/usr/bin/gh") []) 0
                  (String.append "git version 2.43.0" (String "010" "")) ""
                  eq_refl eq_refl ltac:(discriminate))).
Defined.

(** X23: the version process times out; and a tool that prints a bare
    newline on its standard output and its version on its standard
    error. *)
Lemma tool_status_fallback_witness :
  _tool_status which_any subprocess_run "cursor"
    (with_gh [RunRaises TimeoutExpired])
  = (Ok (true, "/usr/bin/cursor"), with_gh [])
  /\
  _tool_status which_any subprocess_run "codex"
    (with_gh [Completed 0 (String "010" "") "codex 0.1"])
  = (Ok (true, "/usr/bin/codex"), with_gh []).
Proof.
  split.
  - exact (proj1 (tool_status_fallback which_any subprocess_run
                    "cursor" "/usr/bin/cursor"
                    (with_gh [RunRaises TimeoutExpired])
                    (mkWorld (Some "/usr/bin/gh") []) eq_refl)
             TimeoutExpired eq_refl).
  - exact (proj2 (proj2 (tool_status_fallback which_any subprocess_run
                           "codex" "/usr/bin/codex"
                           (with_gh [Completed 0 (String "010" "")
                                       "codex 0.1"])
                           (mkWorld (Some "/usr/bin/gh") []) eq_refl))
             0%Z (String "010" "") "codex 0.1" eq_refl
             ltac:(discriminate) eq_refl).
Defined.

(** X25: the text git prints for an HTTPS remote. *)
Lemma parse_remote_rebuilds_witness :
  mkState tt [] = mkState tt [] /\
  exists prefix suffix,
    (prefix = "git@github.com:" \/ prefix = "https://github.com/") /\
    (suffix = "" \/ suffix = ".git") /\
    "https://github.com/alice/my-repo.git"
    = prefix ++ "alice" ++ "/" ++ "my-repo" ++ suffix.
Proof.
  exact (parse_remote_rebuilds (rich := Scenario.rich)
           (String.append "https://github.com/alice/my-repo.git"
                          (String "010" ""))
           "alice" "my-repo" (mkState tt []) (mkState tt []) eq_refl).
Defined.

End MoreRuns.
